(** * compiler_server.py: the multi-language execution core

    A shallow embedding of [python-compiler/compiler_server.py]: the
    toolchain probe [check_command_exists], the profile table
    [LANGUAGE_CONFIGS], the process runner [execute_command], the
    orchestrator [compile_and_run_code] and the capability listing
    [get_supported_languages].

    A Python string is modelled by the [string] of the bytes of its
    UTF-8 encoding, so that a literal of this file is the ASCII text it
    shows.  Exit codes are [Z].  The host (operating system, standard
    output and the Unicode tables of the interpreter) is an explicit
    oracle [Env]; the module-level dictionary [LANGUAGE_CONFIGS] is a
    shared store that every request reads and (for Kotlin) writes. *)

From Stdlib Require Import String Ascii List ZArith Bool Lia DecimalString.
Import ListNotations.
Local Open Scope string_scope.
Local Open Scope Z_scope.

(* ================================================================= *)
(** ** Python string operations *)

Module PyStr.

(** [str(n)] / [f"{n}"] for an integer. *)
Definition str_int (n : Z) : string := NilZero.string_of_int (Z.to_int n).

(** [f"{b}"] for a boolean. *)
Definition str_bool (b : bool) : string := if b then "True" else "False".

(** Truthiness of a string: non-empty. *)
Definition truthy (s : string) : bool :=
  match s with EmptyString => false | String _ _ => true end.

(** The lower-case form of an ASCII letter; any other byte as it is. *)
Definition lower_ascii (c : ascii) : ascii :=
  let n := nat_of_ascii c in
  if andb (Nat.leb 65 n) (Nat.leb n 90) then ascii_of_nat (n + 32) else c.

(** [s] with its ASCII letters in lower case: [s.lower()] when [s] is
    ASCII text (the general case is [py_lower] below). *)
Fixpoint lower (s : string) : string :=
  match s with
  | EmptyString => EmptyString
  | String c r => String (lower_ascii c) (lower r)
  end.

(** [sub in s]. *)
Fixpoint contains (sub s : string) : bool :=
  if String.prefix sub s then true
  else match s with
       | EmptyString => false
       | String _ r => contains sub r
       end.

(** The bytes below 128 stand for themselves. *)
Definition is_ascii (c : ascii) : bool := Nat.ltb (nat_of_ascii c) 128.

Fixpoint all_ascii (s : string) : bool :=
  match s with
  | EmptyString => true
  | String c r => andb (is_ascii c) (all_ascii r)
  end.

(** The characters of [s] outside ASCII, in order. *)
Fixpoint non_ascii_part (s : string) : string :=
  match s with
  | EmptyString => EmptyString
  | String c r =>
      if is_ascii c then non_ascii_part r else String c (non_ascii_part r)
  end.

(** A byte that continues a character started before it. *)
Definition is_continuation (c : ascii) : bool :=
  let n := nat_of_ascii c in andb (Nat.leb 128 n) (Nat.leb n 191).

(** [s[:n]]: the first [n] characters. *)
Fixpoint take_chars (n : nat) (s : string) : string :=
  match s with
  | EmptyString => EmptyString
  | String c r =>
      if is_continuation c then String c (take_chars n r)
      else match n with
           | O => EmptyString
           | S m => String c (take_chars m r)
           end
  end.

Definition byte_is (c : ascii) (n : nat) : bool := Nat.eqb (nat_of_ascii c) n.

(** The white space of one byte: tab, LF, VT, FF, CR, FS, GS, RS, US and
    space. *)
Definition is_space (c : ascii) : bool :=
  let n := nat_of_ascii c in
  orb (andb (Nat.leb 9 n) (Nat.leb n 13))
      (orb (andb (Nat.leb 28 n) (Nat.leb n 31)) (Nat.eqb n 32)).

(** The white space of two bytes: U+0085 and U+00A0. *)
Definition is_space2 (a b : ascii) : bool :=
  andb (byte_is a 194) (orb (byte_is b 133) (byte_is b 160)).

(** The white space of three bytes: U+1680, U+2000 to U+200A, U+2028,
    U+2029, U+202F, U+205F and U+3000. *)
Definition is_space3 (a b c : ascii) : bool :=
  let n := nat_of_ascii c in
  orb (andb (byte_is a 225) (andb (byte_is b 154) (byte_is c 128)))
   (orb (andb (byte_is a 226)
              (andb (byte_is b 128)
                    (orb (andb (Nat.leb 128 n) (Nat.leb n 138))
                         (orb (byte_is c 168)
                              (orb (byte_is c 169) (byte_is c 175))))))
    (orb (andb (byte_is a 226) (andb (byte_is b 129) (byte_is c 159)))
         (andb (byte_is a 227) (andb (byte_is b 128) (byte_is c 128))))).

(** [s.lstrip()]. *)
Fixpoint lstrip (s : string) : string :=
  match s with
  | EmptyString => EmptyString
  | String a r1 =>
      if is_space a then lstrip r1
      else match r1 with
           | EmptyString => s
           | String b r2 =>
               if is_space2 a b then lstrip r2
               else match r2 with
                    | EmptyString => s
                    | String c r3 => if is_space3 a b c then lstrip r3 else s
                    end
           end
  end.

Fixpoint rev (s : string) : string :=
  match s with
  | EmptyString => EmptyString
  | String c r => rev r ++ String c EmptyString
  end.

(** [lstrip] on a string read from its end: the bytes of a character
    come last byte first. *)
Fixpoint lstrip_rev (s : string) : string :=
  match s with
  | EmptyString => EmptyString
  | String a r1 =>
      if is_space a then lstrip_rev r1
      else match r1 with
           | EmptyString => s
           | String b r2 =>
               if is_space2 b a then lstrip_rev r2
               else match r2 with
                    | EmptyString => s
                    | String c r3 =>
                        if is_space3 c b a then lstrip_rev r3 else s
                    end
           end
  end.

(** [s.rstrip()]. *)
Definition rstrip (s : string) : string := rev (lstrip_rev (rev s)).

(** [s.strip()]: the white space of Unicode removed at both ends. *)
Definition strip (s : string) : string := rstrip (lstrip s).

(** [x in xs] for a list of strings. *)
Fixpoint mem (x : string) (xs : list string) : bool :=
  match xs with
  | [] => false
  | y :: r => if String.eqb x y then true else mem x r
  end.

End PyStr.

(* ================================================================= *)
(** ** Exceptions and the effect monad *)

(** The exception classes the code distinguishes.  [OtherException]
    stands for any other subclass of [Exception]. *)
Inductive Exn : Type :=
| TimeoutExpired
| FileNotFoundError (msg : string)
| IndexError (msg : string)
| OtherException (msg : string).

(** [str(e)]. *)
Definition str_exn (e : Exn) : string :=
  match e with
  | TimeoutExpired => "Command timed out"
  | FileNotFoundError m => m
  | IndexError m => m
  | OtherException m => m
  end.

Inductive Py (A : Type) : Type :=
| Ret (a : A)
| Raise (e : Exn).
Arguments Ret {A} a.
Arguments Raise {A} e.

(** A [subprocess.CompletedProcess]. *)
Record CompletedProcess : Type := mkCompleted {
  stdout : string;
  stderr : string;
  returncode : Z
}.

(** What a request does to the outside world, in order. *)
Inductive Event : Type :=
| EvSpawn (argv : list string) (cwd : option string) (timeout : Z)
| EvMkdtemp (dir : string)
| EvWrite (path : string) (content : string)
| EvWriteFailed (path : string)
| EvCleanup (dir : string).

(** [os.path] as the platform provides it. *)
Record PathOps : Type := mkPathOps {
  path_join : string -> string -> string;
  path_basename : string -> string;
  path_splitext : string -> string * string
}.

(** The host at the time of a call. *)
Record Env : Type := mkEnv {
  os_name : string;
  os_path : PathOps;
  (** outcome of launching a non-empty argument vector *)
  spawn : list string -> option string -> Z -> Py CompletedProcess;
  (** the directory [tempfile.TemporaryDirectory()] creates; the model
      covers the runs in which it is created and removed without error *)
  mkdtemp : string;
  (** [open(path, 'w')] and [write]: [None] on success *)
  open_write : string -> string -> option Exn;
  path_exists : string -> bool;
  environ_PATH : string;
  (** whether the encoding of standard output has all of the given
      characters, none of them ASCII *)
  stdout_encodes : string -> bool;
  (** [s.lower()] for a text [s] that is not all ASCII and whose ASCII
      letters are in lower case already *)
  unicode_lower : string -> string
}.

(** A profile: [compile_cmd] and [run_cmd] map (file_path, temp_dir) to
    an argument vector; they read [os.name] and [os.path]. *)
Definition CmdGen : Type := Env -> string -> string -> list string.

Record LanguageConfig : Type := mkLanguageConfig {
  extension : string;
  compile_cmd : option CmdGen;
  run_cmd : CmdGen;
  default_filename : string
}.

(** The dictionary [LANGUAGE_CONFIGS], in insertion order. *)
Definition Registry : Type := list (string * LanguageConfig).

Record World : Type := mkWorld {
  registry : Registry;
  trace : list Event
}.

Definition M (A : Type) : Type := World -> Py A * World.

Definition ret {A} (a : A) : M A := fun w => (Ret a, w).

Definition raise {A} (e : Exn) : M A := fun w => (Raise e, w).

Definition bind {A B} (m : M A) (k : A -> M B) : M B :=
  fun w => match m w with
           | (Ret a, w') => k a w'
           | (Raise e, w') => (Raise e, w')
           end.

(** [try: m  except ... as e: h e]. *)
Definition try_except {A} (m : M A) (h : Exn -> M A) : M A :=
  fun w => match m w with
           | (Ret a, w') => (Ret a, w')
           | (Raise e, w') => h e w'
           end.

(** [try: m  finally: f] (the exit of a [with] block). *)
Definition finally {A} (m : M A) (f : M unit) : M A :=
  fun w => match m w with
           | (r, w') => match f w' with
                        | (Ret _, w'') => (r, w'')
                        | (Raise e, w'') => (Raise e, w'')
                        end
           end.

Definition log (e : Event) : M unit :=
  fun w => (Ret tt, mkWorld (registry w) (trace w ++ [e])).

Definition get_registry : M Registry := fun w => (Ret (registry w), w).

Definition put_registry (r : Registry) : M unit :=
  fun w => (Ret tt, mkWorld r (trace w)).

Declare Scope py_scope.
Delimit Scope py_scope with py.
Notation "x <- m ;; k" := (bind m (fun x => k))
  (at level 61, m at next level, right associativity) : py_scope.
Notation "m ;; k" := (bind m (fun _ => k))
  (at level 61, right associativity) : py_scope.
Local Open Scope py_scope.
Notation "' pat <- m ;; k" :=
  (bind m (fun x => match x with pat => k end))
  (at level 61, pat pattern, m at next level, right associativity) : py_scope.

(* ================================================================= *)
(** ** Text and standard output *)

(** [s.lower()]: ASCII text is lower-cased here; for any other text the
    ASCII letters are lower-cased and the interpreter's Unicode tables
    do the rest. *)
Definition py_lower (env : Env) (s : string) : string :=
  if PyStr.all_ascii s then PyStr.lower s
  else unicode_lower env (PyStr.lower s).

(** Standard output can take [text]: ASCII is in every encoding; the
    other characters are the host's matter. *)
Definition printable (env : Env) (text : string) : bool :=
  match PyStr.non_ascii_part text with
  | EmptyString => true
  | String c r => stdout_encodes env (String c r)
  end.

(** The [UnicodeEncodeError] of a failed [print]; its text is ASCII
    whatever the codec and the character. *)
Definition encode_error : Exn :=
  OtherException "codec can't encode character".

(** [print(text)]: raises when standard output cannot encode [text]. *)
Definition print (env : Env) (text : string) : M unit :=
  if printable env text then ret tt else raise encode_error.

(** [repr] of a list of plain strings, as an f-string shows it. *)
Definition repr_list (l : list string) : string :=
  "[" ++ String.concat ", " (map (fun x => "'" ++ x ++ "'") l) ++ "]".

(** U+2713, the check mark. *)
Definition check_mark : string :=
  String (ascii_of_nat 226)
    (String (ascii_of_nat 156) (String (ascii_of_nat 147) EmptyString)).

(* ================================================================= *)
(** ** Toolchain probe *)

(** [subprocess.run(argv, cwd=cwd, timeout=timeout, ...)].  [Popen]
    takes [argv[0]] as the program to launch: an empty vector fails with
    [IndexError] before any process exists. *)
Definition subprocess_run (env : Env) (argv : list string)
    (cwd : option string) (timeout : Z) : M CompletedProcess :=
  match argv with
  | [] => raise (IndexError "list index out of range")
  | _ :: _ =>
      log (EvSpawn argv cwd timeout) ;;
      (fun w => (spawn env argv cwd timeout, w))
  end.

(** [version_flags.get(command, ['--version'])]. *)
Definition version_flags_get (command : string) : list string :=
  if PyStr.mem command ["kotlinc"; "kotlinc.bat"; "kotlin"; "javac"; "java"]
  then ["-version"]
  else if PyStr.mem command ["python"; "node"; "gcc"; "g++"] then ["--version"]
  else if String.eqb command "go" then ["version"]
  else ["--version"].

(** [commands_to_try] of [check_command_exists]. *)
Definition commands_to_try (env : Env) (cmd : string) : list string :=
  if andb (String.eqb (os_name env) "nt") (String.eqb cmd "kotlinc")
  then ["kotlinc.bat"; "kotlinc"]
  else [cmd].

(** The test applied to a completed candidate (lines 97-103). *)
Definition candidate_ok (env : Env) (command : string)
    (result : CompletedProcess) : bool :=
  if PyStr.mem command ["kotlinc"; "kotlinc.bat"] then
    orb (returncode result =? 0)
        (orb (PyStr.contains "kotlin" (py_lower env (stderr result)))
             (PyStr.contains "kotlin" (py_lower env (stdout result))))
  else returncode result =? 0.

(** Lines 63-103: the body of the inner [try] for one candidate.  It
    returns [true] where the code returns [True]. *)
Definition try_candidate (env : Env) (command : string) : M bool :=
  let flag := version_flags_get command in
  print env ("Trying command: " ++ command ++ " with flags "
             ++ repr_list flag) ;;
  result <- subprocess_run env (command :: flag) None 15 ;;
  print env ("Result for " ++ command ++ ": returncode="
             ++ PyStr.str_int (returncode result)) ;;
  (if PyStr.truthy (stdout result)
   then print env ("  stdout: "
                   ++ PyStr.take_chars 100 (PyStr.strip (stdout result)))
   else ret tt) ;;
  (if PyStr.truthy (stderr result)
   then print env ("  stderr: "
                   ++ PyStr.take_chars 100 (PyStr.strip (stderr result)))
   else ret tt) ;;
  if PyStr.mem command ["kotlinc"; "kotlinc.bat"] then
    if candidate_ok env command result then
      print env (check_mark ++ " " ++ command ++ " found and working!") ;;
      ret true
    else ret false
  else if returncode result =? 0 then ret true else ret false.

(** Lines 105-113: the handlers of the inner [try]; each prints and goes
    on to the next candidate. *)
Definition skip_candidate (env : Env) (command : string) (e : Exn) : M bool :=
  match e with
  | FileNotFoundError _ =>
      print env ("Command " ++ command ++ " not found in PATH") ;; ret false
  | TimeoutExpired =>
      print env ("Command " ++ command ++ " timed out") ;; ret false
  | _ =>
      print env ("Exception with " ++ command ++ ": " ++ str_exn e) ;;
      ret false
  end.

(** The [for command in commands_to_try] loop: the first candidate that
    passes returns [True]; a candidate whose body raises is skipped by
    the inner handlers; [False] after the last one. *)
Fixpoint try_commands (env : Env) (cands : list string) : M bool :=
  match cands with
  | [] => ret false
  | command :: rest =>
      found <- try_except (try_candidate env command)
                          (skip_candidate env command) ;;
      if found then ret true else try_commands env rest
  end.

(** Lines 53-119; the outer handler prints and returns [False]. *)
Definition check_command_exists (env : Env) (cmd : string) : M bool :=
  try_except (try_commands env (commands_to_try env cmd))
             (fun e =>
                print env ("General exception checking " ++ cmd ++ ": "
                           ++ str_exn e) ;;
                ret false).

(* ================================================================= *)
(** ** Language profile registry *)

Definition kotlin_compile_cmd : CmdGen := fun env file_path temp_dir =>
  let jar_path := path_join (os_path env) temp_dir "program.jar" in
  let kotlinc_cmd :=
    if String.eqb (os_name env) "nt" then "kotlinc.bat" else "kotlinc" in
  [kotlinc_cmd; file_path; "-include-runtime"; "-d"; jar_path].

Definition kotlin_run_cmd : CmdGen := fun env file_path temp_dir =>
  let jar_path := path_join (os_path env) temp_dir "program.jar" in
  ["java"; "-jar"; jar_path].

Definition kotlin_interpret_cmd : CmdGen := fun env file_path temp_dir =>
  let kotlin_cmd :=
    if String.eqb (os_name env) "nt" then "kotlin.bat" else "kotlin" in
  [kotlin_cmd; "-script"; file_path].

Definition LANGUAGE_CONFIGS : Registry :=
  [ ("python", mkLanguageConfig ".py" None
       (fun env file_path temp_dir => ["python"; file_path]) "main.py");
    ("java", mkLanguageConfig ".java"
       (Some (fun env file_path temp_dir => ["javac"; file_path]))
       (fun env file_path temp_dir =>
          ["java"; "-cp"; temp_dir;
           fst (path_splitext (os_path env)
                  (path_basename (os_path env) file_path))])
       "Main.java");
    ("kotlin", mkLanguageConfig ".kt"
       (Some kotlin_compile_cmd) kotlin_run_cmd "Main.kt");
    ("c", mkLanguageConfig ".c"
       (Some (fun env file_path temp_dir =>
          ["gcc"; file_path; "-o";
           path_join (os_path env) temp_dir "program.exe"]))
       (fun env file_path temp_dir =>
          [path_join (os_path env) temp_dir "program.exe"])
       "main.c");
    ("cpp", mkLanguageConfig ".cpp"
       (Some (fun env file_path temp_dir =>
          ["g++"; file_path; "-o";
           path_join (os_path env) temp_dir "program.exe"]))
       (fun env file_path temp_dir =>
          [path_join (os_path env) temp_dir "program.exe"])
       "main.cpp");
    ("javascript", mkLanguageConfig ".js" None
       (fun env file_path temp_dir => ["node"; file_path]) "main.js");
    ("go", mkLanguageConfig ".go" None
       (fun env file_path temp_dir => ["go"; "run"; file_path]) "main.go") ].

(** [LANGUAGE_CONFIGS[lang]] ([None]: [lang not in LANGUAGE_CONFIGS]). *)
Fixpoint lookup (lang : string) (reg : Registry) : option LanguageConfig :=
  match reg with
  | [] => None
  | (k, c) :: r => if String.eqb lang k then Some c else lookup lang r
  end.

(** The object stored under [lang] replaced by [c]: what an attribute
    assignment through a reference to that object does to the table. *)
Fixpoint store (lang : string) (c : LanguageConfig) (reg : Registry) : Registry :=
  match reg with
  | [] => []
  | (k, c0) :: r =>
      if String.eqb lang k then (k, c) :: r else (k, c0) :: store lang c r
  end.

(** [LANGUAGE_CONFIGS.keys()]. *)
Definition keys (reg : Registry) : list string := map fst reg.

(* ================================================================= *)
(** ** Process runner *)

(** [cmd[0]]. *)
Definition index0 (cmd : list string) : M string :=
  match cmd with
  | [] => raise (IndexError "list index out of range")
  | c :: _ => ret c
  end.

Definition execute_command (env : Env) (cmd : list string) (cwd : string)
    (timeout : Z) : M (string * string * Z) :=
  try_except
    (result <- subprocess_run env cmd (Some cwd) timeout ;;
     ret (stdout result, stderr result, returncode result))
    (fun e =>
       match e with
       | TimeoutExpired => ret ("", "Execution timed out", 1)
       | FileNotFoundError m =>
           c <- index0 cmd ;;
           ret ("", "Command not found: " ++ c ++ " - " ++ m, 1)
       | _ => ret ("", "Execution error: " ++ str_exn e, 1)
       end).

(* ================================================================= *)
(** ** Execution orchestrator *)

Record CompileRequest : Type := mkRequest {
  code : string;
  language : string;
  fileName : option string
}.

Record CompileResponse : Type := mkResponse {
  success : bool;
  output : string;
  errors : list string
}.

(** The module constant [kotlin_bin_path]. *)
Definition kotlin_bin_path : string := "C:\kotlinc\bin".

(** The line separator used by ["\n".join]. *)
Definition newline : string := String (ascii_of_nat 10) EmptyString.

(** [with open(file_path, 'w') as f: f.write(code)]. *)
Definition write_code (env : Env) (file_path content : string) : M unit :=
  match open_write env file_path content with
  | None => log (EvWrite file_path content)
  | Some e => log (EvWriteFailed file_path) ;; raise e
  end.

(** Lines 227-251: the Kotlin fallback.  [config] is a reference to the
    object held by [LANGUAGE_CONFIGS], so the two attribute assignments
    update the table itself.  [inl]: the early return. *)
Definition kotlin_fallback (env : Env) (lang : string) (config : LanguageConfig)
    : M (CompileResponse + LanguageConfig) :=
  kotlinc_available <- check_command_exists env "kotlinc" ;;
  kotlin_available <- check_command_exists env "kotlin" ;;
  if negb kotlinc_available then
    if kotlin_available then
      let config' := mkLanguageConfig (extension config) None
                       kotlin_interpret_cmd (default_filename config) in
      reg <- get_registry ;;
      put_registry (store lang config' reg) ;;
      ret (inr config')
    else
      ret (inl (mkResponse false ""
        [ "Kotlin compiler not found. Troubleshooting info:";
          "Kotlin bin path exists: "
            ++ PyStr.str_bool (path_exists env kotlin_bin_path);
          "kotlinc.bat exists: "
            ++ PyStr.str_bool (path_exists env
                 (path_join (os_path env) kotlin_bin_path "kotlinc.bat"));
          "Current PATH contains kotlinc: "
            ++ PyStr.str_bool (PyStr.contains kotlin_bin_path (environ_PATH env));
          "Try running kotlinc.bat -version manually in terminal to test" ]))
  else ret (inr config).

(** Lines 297-311: [output_parts]. *)
Definition output_parts (compile_output run_out run_err : string)
    : list string :=
  ((if PyStr.truthy compile_output then ["Compilation successful"] else [])
   ++ (if PyStr.truthy run_out
       then ["--- Execution Output ---"; PyStr.strip run_out] else [])
   ++ (if PyStr.truthy run_err
       then ["--- Execution Error ---"; PyStr.strip run_err] else [])
   ++ (if andb (negb (PyStr.truthy run_out)) (negb (PyStr.truthy run_err))
       then ["--- No Output ---"] else []))%list.

(** Lines 313-314: [errors] after the run step. *)
Definition run_errors (run_err : string) (rc : Z) : list string :=
  if andb (negb (rc =? 0)) (PyStr.truthy run_err)
  then ["Execution failed with exit code: " ++ PyStr.str_int rc] else [].

(** Lines 297-322: the response built from the build output and the
    outcome of the run step. *)
Definition format_result (compile_output : string)
    (run_out run_err : string) (rc : Z) : CompileResponse :=
  let parts := output_parts compile_output run_out run_err in
  let errs := run_errors run_err rc in
  let final_output :=
    match parts with
    | [] => compile_output
    | _ :: _ => String.concat newline parts
    end in
  mkResponse (andb (rc =? 0) (match errs with [] => true | _ :: _ => false end))
             final_output errs.

(** Lines 292-322: the run step. *)
Definition run_step (env : Env) (config : LanguageConfig)
    (file_path temp_dir compile_output : string) : M CompileResponse :=
  let run := run_cmd config env file_path temp_dir in
  '(out, err, rc) <- execute_command env run temp_dir 30 ;;
  ret (format_result compile_output out err rc).

(** Lines 274-322: build (if the profile has one), then run. *)
Definition build_and_run (env : Env) (config : LanguageConfig)
    (file_path temp_dir : string) : M CompileResponse :=
  match compile_cmd config with
  | Some gen =>
      let cmd := gen env file_path temp_dir in
      '(out, err, rc) <- execute_command env cmd temp_dir 60 ;;
      let compile_output := out ++ err in
      if negb (rc =? 0) then
        ret (mkResponse false compile_output
               ["Compilation failed with exit code: " ++ PyStr.str_int rc])
      else run_step env config file_path temp_dir compile_output
  | None => run_step env config file_path temp_dir ""
  end.

(** Lines 253-257. *)
Definition target_filename (req : CompileRequest) (config : LanguageConfig)
    : string :=
  match fileName req with
  | Some f => if PyStr.truthy f then f else default_filename config
  | None => default_filename config
  end.

(** Line 261: [file_path]. *)
Definition workspace_file (env : Env) (req : CompileRequest)
    (config : LanguageConfig) : string :=
  path_join (os_path env) (mkdtemp env) (target_filename req config).

(** Lines 259-322: the [with tempfile.TemporaryDirectory()] block. *)
Definition in_workspace (env : Env) (req : CompileRequest)
    (config : LanguageConfig) : M CompileResponse :=
  let temp_dir := mkdtemp env in
  log (EvMkdtemp temp_dir) ;;
  finally
    (let file_path := workspace_file env req config in
     written <- try_except (write_code env file_path (code req) ;; ret None)
                           (fun e => ret (Some e)) ;;
     match written with
     | Some e =>
         ret (mkResponse false ""
                ["Failed to write code to file: " ++ str_exn e])
     | None => build_and_run env config file_path temp_dir
     end)
    (log (EvCleanup temp_dir)).

(** Lines 217-251: the profile a request runs with ([inr]), or the
    response of an early return ([inl]). *)
Definition select_profile (env : Env) (req : CompileRequest)
    : M (CompileResponse + LanguageConfig) :=
  reg <- get_registry ;;
  match lookup (language req) reg with
  | None =>
      ret (inl (mkResponse false ""
                  ["Unsupported language: " ++ language req]))
  | Some config =>
      if String.eqb (language req) "kotlin"
      then kotlin_fallback env (language req) config
      else ret (inr config)
  end.

Definition compile_and_run_code (env : Env) (req : CompileRequest)
    : M CompileResponse :=
  sel <- select_profile env req ;;
  match sel with
  | inl resp => ret resp
  | inr config => in_workspace env req config
  end.

(* ================================================================= *)
(** ** Capability reporter *)

(** The [for lang in LANGUAGE_CONFIGS.keys()] loop of
    [get_supported_languages]; [languages] is the list built so far. *)
Fixpoint languages_loop (env : Env) (ks : list string) (languages : list string)
    : M (list string) :=
  match ks with
  | [] => ret languages
  | lang :: rest =>
      if String.eqb lang "kotlin" then
        a <- check_command_exists env "kotlinc" ;;
        b <- (if a then ret true else check_command_exists env "kotlin") ;;
        if b then languages_loop env rest (languages ++ [lang])%list
        else languages_loop env rest languages
      else languages_loop env rest (languages ++ [lang])%list
  end.

(** The ['languages'] field of the response ([count] is its length). *)
Definition get_supported_languages (env : Env) : M (list string) :=
  reg <- get_registry ;;
  languages_loop env (keys reg) [].

(* ================================================================= *)
(** ** A POSIX platform: [posixpath] and the file tree *)

Module Posix.

Definition slash : ascii := "/"%char.
Definition dot : ascii := "."%char.

Fixpoint has_char (ch : ascii) (s : string) : bool :=
  match s with
  | EmptyString => false
  | String c r => if Ascii.eqb c ch then true else has_char ch r
  end.

Fixpoint ends_with (ch : ascii) (s : string) : bool :=
  match s with
  | EmptyString => false
  | String c EmptyString => Ascii.eqb c ch
  | String _ r => ends_with ch r
  end.

(** [posixpath.join(a, b)]. *)
Definition join (a b : string) : string :=
  match b with
  | String c _ =>
      if Ascii.eqb c slash then b
      else if orb (negb (PyStr.truthy a)) (ends_with slash a) then a ++ b
      else a ++ String slash b
  | EmptyString =>
      if orb (negb (PyStr.truthy a)) (ends_with slash a) then a
      else a ++ String slash EmptyString
  end.

(** [posixpath.basename(p)]: what follows the last slash. *)
Fixpoint basename (p : string) : string :=
  match p with
  | EmptyString => EmptyString
  | String c r =>
      if has_char slash r then basename r
      else if Ascii.eqb c slash then r else p
  end.

(** [p] up to and including its last slash. *)
Fixpoint dirpart (p : string) : string :=
  match p with
  | EmptyString => EmptyString
  | String c r =>
      if has_char slash r then String c (dirpart r)
      else if Ascii.eqb c slash then String c EmptyString else EmptyString
  end.

(** [name] cut before its last dot. *)
Fixpoint split_last_dot (name : string) : option (string * string) :=
  match name with
  | EmptyString => None
  | String c r =>
      match split_last_dot r with
      | Some (a, b) => Some (String c a, b)
      | None => if Ascii.eqb c dot then Some (EmptyString, name) else None
      end
  end.

Fixpoint all_dots (s : string) : bool :=
  match s with
  | EmptyString => true
  | String c r => andb (Ascii.eqb c dot) (all_dots r)
  end.

(** [posixpath.splitext(p)]: the extension starts at the last dot of the
    last component, unless only dots precede it there. *)
Definition splitext (p : string) : string * string :=
  match split_last_dot (basename p) with
  | Some (a, b) =>
      if all_dots a then (p, EmptyString) else (dirpart p ++ a, b)
  | None => (p, EmptyString)
  end.

Definition path_ops : PathOps := mkPathOps join basename splitext.

(** The components of a path between slashes. *)
Fixpoint split_slash (cur : string) (s : string) : list string :=
  match s with
  | EmptyString => [cur]
  | String c r =>
      if Ascii.eqb c slash then cur :: split_slash EmptyString r
      else split_slash (cur ++ String c EmptyString) r
  end.

(** Resolution of [.] and [..] against the components walked so far
    ([stack], innermost first). *)
Fixpoint walk (stack : list string) (comps : list string) : list string :=
  match comps with
  | [] => List.rev stack
  | c :: r =>
      if orb (String.eqb c "") (String.eqb c ".") then walk stack r
      else if String.eqb c ".." then walk (List.tl stack) r
      else walk (c :: stack) r
  end.

(** The directory chain an absolute path denotes. *)
Definition resolve (p : string) : list string :=
  walk [] (split_slash EmptyString p).

Fixpoint is_prefix (d p : list string) : bool :=
  match d, p with
  | [], _ => true
  | _ :: _, [] => false
  | x :: d', y :: p' => andb (String.eqb x y) (is_prefix d' p')
  end.

Fixpoint same_place (p q : list string) : bool :=
  match p, q with
  | [], [] => true
  | x :: p', y :: q' => andb (String.eqb x y) (same_place p' q')
  | _, _ => false
  end.

(** [path] denotes a place in the tree rooted at [dir]. *)
Definition inside (dir path : string) : bool :=
  is_prefix (resolve dir) (resolve path).

(** The regular files of a file tree, by resolved location. *)
Definition Files : Type := list (list string * string).

(** The effect of one event on the files: a write creates or replaces
    the file; the cleanup of a directory removes everything under it. *)
Definition step (fs : Files) (e : Event) : Files :=
  match e with
  | EvWrite path content =>
      (resolve path, content)
        :: filter (fun f => negb (same_place (fst f) (resolve path))) fs
  | EvCleanup dir =>
      filter (fun f => negb (is_prefix (resolve dir) (fst f))) fs
  | _ => fs
  end.

Definition run (fs : Files) (t : list Event) : Files := fold_left step t fs.

Definition file_at (fs : Files) (path : string) : option string :=
  match find (fun f => same_place (fst f) (resolve path)) fs with
  | Some f => Some (snd f)
  | None => None
  end.

End Posix.

(* ================================================================= *)
(** ** Start-up report *)



(* ================================================================= *)
(** ** The [/compile] endpoint *)

(** A value decoded from a JSON body.  [JFloat m e] is the real number
    [m * 10 ^ e]; [JObj] lists the items of the decoded [dict]. *)
#[warnings="-register-all"]
Inductive Json : Type :=
| JNull
| JBool (b : bool)
| JInt (n : Z)
| JFloat (m e : Z)
| JStr (s : string)
| JArr (items : list Json)
| JObj (fields : list (string * Json)).

(** Truthiness: [None], [False], zero, and the empty string, list and
    dict are false. *)
Definition json_truthy (v : Json) : bool :=
  match v with
  | JNull => false
  | JBool b => b
  | JInt n => negb (n =? 0)
  | JFloat m _ => negb (m =? 0)
  | JStr s => PyStr.truthy s
  | JArr items => match items with [] => false | _ :: _ => true end
  | JObj fields => match fields with [] => false | _ :: _ => true end
  end.

(** The value stored under [key] in the items of a [dict]. *)
Fixpoint json_field (key : string) (fields : list (string * Json))
    : option Json :=
  match fields with
  | [] => None
  | (k, v) :: r => if String.eqb key k then Some v else json_field key r
  end.

(** The places where the handler can meet a value of the wrong type. *)
Inductive Fault : Type :=
| NotIterable (v : Json)
| NotSubscriptable (v : Json) (key : string)
| KeyMissing (key : string)
| NoAttribute (v : Json) (attr : string).

(** The request as Flask presents it to the handler: the method, whether
    the content type is JSON, and what [request.get_json()] gives (it
    raises when the body does not parse). *)
Record HttpRequest : Type := mkHttpRequest {
  http_method : string;
  is_json : bool;
  get_json : Py Json
}.

(** The response: the status, the headers the handler sets itself, and
    the JSON body, absent for the preflight answer. *)
Record HttpResponse : Type := mkHttpResponse {
  status : Z;
  headers : list (string * string);
  body : option CompileResponse
}.

Section Endpoint.

(** What [compile_and_run_code] does when [code] or [fileName] is not a
    string: left open. *)
Variable untyped_run : Env -> Json -> string -> Json -> M CompileResponse.

(** The text of the interpreter's exception for each fault. *)
Variable fault_text : Fault -> string.

Definition lift_py {A} (r : Py A) : M A := fun w => (r, w).

(** [key in data]. *)
Definition json_in (key : string) (data : Json) : M bool :=
  match data with
  | JObj fields =>
      ret (match json_field key fields with Some _ => true | None => false end)
  | JArr items =>
      ret (existsb (fun v => match v with
                             | JStr s => String.eqb s key
                             | _ => false
                             end) items)
  | JStr s => ret (PyStr.contains key s)
  | _ => raise (OtherException (fault_text (NotIterable data)))
  end.

(** [data[key]]. *)
Definition json_getitem (data : Json) (key : string) : M Json :=
  match data with
  | JObj fields =>
      match json_field key fields with
      | Some v => ret v
      | None => raise (OtherException (fault_text (KeyMissing key)))
      end
  | _ => raise (OtherException (fault_text (NotSubscriptable data key)))
  end.

(** [value.lower()]. *)
Definition json_lower (env : Env) (value : Json) : M string :=
  match value with
  | JStr s => ret (py_lower env s)
  | _ => raise (OtherException (fault_text (NoAttribute value "lower")))
  end.

(** [data.get(key)]. *)
Definition json_get (data : Json) (key : string) : M Json :=
  match data with
  | JObj fields =>
      ret (match json_field key fields with Some v => v | None => JNull end)
  | _ => raise (OtherException (fault_text (NoAttribute data "get")))
  end.

(** Lines 371-378: [compile_and_run_code(CompileRequest(code, language,
    fileName))].  A [fileName] that is false in a condition selects the
    default file name, as an absent one does. *)
Definition run_request (env : Env) (code_value : Json) (language_name : string)
    (file_value : Json) : M CompileResponse :=
  match code_value with
  | JStr c =>
      match file_value with
      | JStr f => compile_and_run_code env (mkRequest c language_name (Some f))
      | _ =>
          if json_truthy file_value
          then untyped_run env code_value language_name file_value
          else compile_and_run_code env (mkRequest c language_name None)
      end
  | _ => untyped_run env code_value language_name file_value
  end.

(** The body of a 400 answer. *)
Definition rejected (message : string) : HttpResponse :=
  mkHttpResponse 400 [] (Some (mkResponse false "" [message])).

(** Lines 331-400. *)
Definition compile_endpoint (env : Env) (request : HttpRequest)
    : M HttpResponse :=
  if String.eqb (http_method request) "OPTIONS" then
    ret (mkHttpResponse 204
           [("Access-Control-Allow-Origin", "*");
            ("Access-Control-Allow-Methods", "POST, OPTIONS");
            ("Access-Control-Allow-Headers", "Content-Type")] None)
  else
    try_except
      (if negb (is_json request) then
         ret (rejected "Content-Type must be application/json")
       else
         data <- lift_py (get_json request) ;;
         if negb (json_truthy data) then ret (rejected "Empty request body")
         else
           has_code <- json_in "code" data ;;
           missing <- (if negb has_code then ret true
                       else has_language <- json_in "language" data ;;
                            ret (negb has_language)) ;;
           if missing then
             ret (rejected "Missing required fields: code and language")
           else
             code_value <- json_getitem data "code" ;;
             language_value <- json_getitem data "language" ;;
             language_name <- json_lower env language_value ;;
             file_value <- json_get data "fileName" ;;
             result <- run_request env code_value language_name file_value ;;
             ret (mkHttpResponse 200
                    [("Access-Control-Allow-Origin", "*");
                     ("Content-Type", "application/json")] (Some result)))
      (fun e =>
         ret (mkHttpResponse 500
                [("Access-Control-Allow-Origin", "*");
                 ("Content-Type", "application/json")]
                (Some (mkResponse false "" ["Server error: " ++ str_exn e])))).

End Endpoint.

(* ================================================================= *)
(** ** Vocabulary of the properties *)

(** [sub] occurs in [s]. *)
Definition occurs (sub s : string) : Prop :=
  exists a b, s = a ++ sub ++ b.

(** What launching [argv] yields, the event log left aside. *)
Definition launch (env : Env) (argv : list string) (cwd : option string)
    (timeout : Z) : Py CompletedProcess :=
  match argv with
  | [] => Raise (IndexError "list index out of range")
  | _ :: _ => spawn env argv cwd timeout
  end.

(** The events of launching [argv]. *)
Definition spawn_log (argv : list string) (cwd : option string) (timeout : Z)
    : list Event :=
  match argv with
  | [] => []
  | _ :: _ => [EvSpawn argv cwd timeout]
  end.

(** [w] with [evs] appended to its log. *)
Definition logged (w : World) (evs : list Event) : World :=
  mkWorld (registry w) (trace w ++ evs).

(** The triple [execute_command] hands back, the event log left aside. *)
Definition command_outcome (env : Env) (cmd : list string) (cwd : string)
    (timeout : Z) : Py (string * string * Z) :=
  fst (execute_command env cmd cwd timeout (mkWorld [] [])).

(** The launch a probe makes for one candidate. *)
Definition probe_argv (command : string) : list string :=
  command :: version_flags_get command.

(** A candidate of the [kotlinc] family. *)
Definition kotlinc_family (command : string) : Prop :=
  command = "kotlinc" \/ command = "kotlinc.bat".

(** A candidate answers the probe: it completes, and with exit code zero
    or, for the [kotlinc] family, with "kotlin" in either stream once
    lower-cased. *)
Definition candidate_succeeds (env : Env) (command : string) : Prop :=
  exists result,
    spawn env (probe_argv command) None 15 = Ret result /\
    (returncode result = 0 \/
     (kotlinc_family command /\
      (occurs "kotlin" (py_lower env (stderr result)) \/
       occurs "kotlin" (py_lower env (stdout result))))).

(** The boolean form of [candidate_succeeds]. *)
Definition candidate_passes (env : Env) (command : string) : bool :=
  match spawn env (probe_argv command) None 15 with
  | Ret result => candidate_ok env command result
  | Raise _ => false
  end.

(** What [check_command_exists cmd] hands back, and what it appends to
    the event log. *)
Definition probe_result (env : Env) (cmd : string) : Py bool :=
  fst (check_command_exists env cmd (mkWorld [] [])).

Definition probe_log (env : Env) (cmd : string) : list Event :=
  trace (snd (check_command_exists env cmd (mkWorld [] []))).

(** The answer of the probe, the event log left aside. *)
Definition probe (env : Env) (cmd : string) : bool :=
  match probe_result env cmd with
  | Ret b => b
  | Raise _ => false
  end.

(** Standard output encodes every text, as a UTF-8 one does. *)
Definition utf8_stdout (env : Env) : Prop :=
  forall s, stdout_encodes env s = true.

(** The candidates the loop launches: up to the first that passes. *)
Fixpoint tried (env : Env) (cands : list string) : list string :=
  match cands with
  | [] => []
  | c :: r => if candidate_passes env c then [c] else c :: tried env r
  end.

Definition probe_events (cands : list string) : list Event :=
  map (fun c => EvSpawn (probe_argv c) None 15) cands.

(** A language is listed when it is not Kotlin or one of the two Kotlin
    probes answers. *)
Definition listed (env : Env) (lang : string) : bool :=
  orb (negb (String.eqb lang "kotlin"))
      (orb (probe env "kotlinc") (probe env "kotlin")).

(** [check_command_exists cmd] answers [b], whatever has been logged. *)
Definition answers (env : Env) (cmd : string) (b : bool) : Prop :=
  forall w, fst (check_command_exists env cmd w) = Ret b.

(** The request gets as far as the run step with profile [config] in
    effect and [compile_output] from the build: the profile is resolved,
    the code is written, and the build, if any, exits with zero. *)
Definition reaches_run_step (env : Env) (req : CompileRequest) (w : World)
    (config : LanguageConfig) (compile_output : string) : Prop :=
  (exists w1, select_profile env req w = (Ret (inr config), w1)) /\
  open_write env (workspace_file env req config) (code req) = None /\
  match compile_cmd config with
  | None => compile_output = ""
  | Some gen =>
      exists out err,
        command_outcome env
          (gen env (workspace_file env req config) (mkdtemp env))
          (mkdtemp env) 60 = Ret (out, err, 0) /\
        compile_output = out ++ err
  end.

(** The argument vector of the run step. *)
Definition run_argv (env : Env) (req : CompileRequest)
    (config : LanguageConfig) : list string :=
  run_cmd config env (workspace_file env req config) (mkdtemp env).

(** The table as the module defines it, nothing logged yet. *)
Definition initial_world : World := mkWorld LANGUAGE_CONFIGS [].

(** The events of the two probes the Kotlin fallback makes. *)
Definition kotlin_probe_events (env : Env) : list Event :=
  (probe_log env "kotlinc" ++ probe_log env "kotlin")%list.

(** The profile the fallback leaves in the table. *)
Definition script_profile (config : LanguageConfig) : LanguageConfig :=
  mkLanguageConfig (extension config) None kotlin_interpret_cmd
                   (default_filename config).

(** The response when neither Kotlin tool answers. *)
Definition kotlin_missing (env : Env) : CompileResponse :=
  mkResponse false ""
    [ "Kotlin compiler not found. Troubleshooting info:";
      "Kotlin bin path exists: "
        ++ PyStr.str_bool (path_exists env kotlin_bin_path);
      "kotlinc.bat exists: "
        ++ PyStr.str_bool (path_exists env
             (path_join (os_path env) kotlin_bin_path "kotlinc.bat"));
      "Current PATH contains kotlinc: "
        ++ PyStr.str_bool (PyStr.contains kotlin_bin_path (environ_PATH env));
      "Try running kotlinc.bat -version manually in terminal to test" ].


(* ================================================================= *)
(** ** Concrete platforms and requests *)

Module Demo.

(** A POSIX host: Python prints to both streams and exits with zero,
    [gcc] builds silently, [g++] rejects the source, [kotlinc] is not
    installed and the [kotlin] script runner is. *)
Definition demo_spawn (argv : list string) (cwd : option string) (t : Z)
    : Py CompletedProcess :=
  match argv with
  | "python" :: _ => Ret (mkCompleted "hi" "warn" 0)
  | "gcc" :: _ => Ret (mkCompleted "" "" 0)
  | "g++" :: _ =>
      Ret (mkCompleted "" "main.cpp:1:1: error: expected declaration" 1)
  | "kotlinc" :: _ =>
      Raise (FileNotFoundError "[Errno 2] No such file or directory")
  | _ => Ret (mkCompleted "out" "" 0)
  end.

Definition demo_env : Env :=
  mkEnv "posix" Posix.path_ops demo_spawn "/tmp/tmpab12cd"
        (fun _ _ => None) (fun _ => false) "/usr/bin:/bin"
        (fun _ => true) (fun s => s).

(** The same host once [kotlinc] has been installed and the script
    runner removed. *)
Definition later_spawn (argv : list string) (cwd : option string) (t : Z)
    : Py CompletedProcess :=
  match argv with
  | "kotlinc" :: "-version" :: _ =>
      Ret (mkCompleted "" "info: kotlinc-jvm 1.9.0" 0)
  | "kotlinc" :: _ => Ret (mkCompleted "" "" 0)
  | "kotlin" :: _ =>
      Raise (FileNotFoundError "[Errno 2] No such file or directory")
  | _ => Ret (mkCompleted "out" "" 0)
  end.

Definition later_env : Env :=
  mkEnv "posix" Posix.path_ops later_spawn "/tmp/tmpef34gh"
        (fun _ _ => None) (fun _ => false) "/usr/bin:/bin"
        (fun _ => true) (fun s => s).

Definition python_request : CompileRequest :=
  mkRequest "print('hi')" "python" None.

Definition c_request : CompileRequest :=
  mkRequest "int main(void) { return 0; }" "c" None.


Definition kotlin_request : CompileRequest :=
  mkRequest "fun main() { println(1) }" "kotlin" None.

Definition ruby_request : CompileRequest :=
  mkRequest "puts 1" "ruby" None.

Definition escaping_request : CompileRequest :=
  mkRequest "print('hi')" "python" (Some "../escape.py").

(** The profiles of the table the requests above resolve to. *)
Definition python_config : LanguageConfig :=
  mkLanguageConfig ".py" None
    (fun env file_path temp_dir => ["python"; file_path]) "main.py".

Definition c_config : LanguageConfig :=
  mkLanguageConfig ".c"
    (Some (fun env file_path temp_dir =>
       ["gcc"; file_path; "-o";
        path_join (os_path env) temp_dir "program.exe"]))
    (fun env file_path temp_dir =>
       [path_join (os_path env) temp_dir "program.exe"])
    "main.c".


Definition kotlin_config : LanguageConfig :=
  mkLanguageConfig ".kt" (Some kotlin_compile_cmd) kotlin_run_cmd "Main.kt".

(** The world after the Kotlin request has been served on [demo_env]. *)
Definition after_fallback : World :=
  snd (compile_and_run_code demo_env kotlin_request initial_world).

(** The table of [after_fallback] at the start of a later request. *)
Definition later_world : World := mkWorld (registry after_fallback) [].

End Demo.

(* ================================================================= *)
(** ** Vocabulary of the event log *)

(** A launch made by a probe: a version query of some candidate, without
    working directory, with the deadline of 15 seconds. *)
Definition is_probe (e : Event) : Prop :=
  exists c, e = EvSpawn (probe_argv c) None 15.

(** A computation that hands back the same thing in every world and
    only appends probe launches to the log. *)
Definition probe_only {A} (m : M A) : Prop :=
  exists r evs, Forall is_probe evs /\ forall w, m w = (r, logged w evs).

(** No launch, or one launch in directory [d] with deadline [t]. *)
Definition at_most_one_launch (d : string) (t : Z) (l : list Event) : Prop :=
  l = [] \/ exists argv, l = [EvSpawn argv (Some d) t].

(** What happens between the creation of workspace [d] and its cleanup:
    a failed write and nothing else, or the write of [content] followed
    by at most one launch with the build deadline and then at most one
    launch with the run deadline, both in [d]. *)
Definition workspace_activity (d content : string) (mid : list Event) : Prop :=
  (exists file, mid = [EvWriteFailed file]) \/
  (exists file b r,
     mid = (EvWrite file content :: b ++ r)%list /\
     at_most_one_launch d 60 b /\ at_most_one_launch d 30 r).

(* ================================================================= *)
(** ** Further platforms *)

Module Scenario.

(** A host whose temporary directory cannot be written to. *)
Definition readonly_env : Env :=
  mkEnv "posix" Posix.path_ops Demo.demo_spawn "/tmp/tmpro00fs"
        (fun _ _ => Some (OtherException "[Errno 30] Read-only file system"))
        (fun _ => false) "/usr/bin:/bin" (fun _ => true) (fun s => s).

(** A host with no tool installed at all. *)
Definition bare_env : Env :=
  mkEnv "posix" Posix.path_ops
        (fun _ _ _ =>
           Raise (FileNotFoundError "[Errno 2] No such file or directory"))
        "/tmp/tmpbare00" (fun _ _ => None) (fun _ => false) "/usr/bin:/bin"
        (fun _ => true) (fun s => s).


(** A Windows host, looked at for its probes only: [kotlinc.bat] prints
    its banner to stderr and exits with 1, and every other tool prints a
    banner and exits with 1 as well. *)
Definition windows_env : Env :=
  mkEnv "nt" Posix.path_ops
        (fun argv _ _ =>
           match argv with
           | "kotlinc.bat" :: _ =>
               Ret (mkCompleted "" "info: Kotlinc-JVM 1.9.0" 1)
           | _ => Ret (mkCompleted "kotlin-ish banner" "" 1)
           end)
        "C:/Temp/tmpwin00" (fun _ _ => None) (fun _ => true)
        "C:\kotlinc\bin;C:\Windows" (fun _ => true) (fun s => s).

(** The host of [Demo.later_env], its standard output being a pipe whose
    encoding has no character outside ASCII. *)
Definition narrow_env : Env :=
  mkEnv "posix" Posix.path_ops Demo.later_spawn "/tmp/tmpef34gh"
        (fun _ _ => None) (fun _ => false) "/usr/bin:/bin"
        (fun _ => false) (fun s => s).

End Scenario.

(* ================================================================= *)
(** ** Module start-up *)

(** Lines 17-28: what [os.environ.get('PATH', '')] gives once the module
    has been loaded, from its value [current_path] before, [os.pathsep]
    and [os.path.exists(kotlin_bin_path)]. *)
Definition startup_path (pathsep : string) (bin_exists : bool)
    (current_path : string) : string :=
  if andb (negb (PyStr.contains kotlin_bin_path current_path)) bin_exists
  then kotlin_bin_path ++ pathsep ++ current_path
  else current_path.

(** A file name that is one ordinary path component. *)
Definition plain_name (f : string) : Prop :=
  Posix.has_char Posix.slash f = false /\ f <> "" /\ f <> "." /\ f <> "..".


(* ================================================================= *)
(** ** Vocabulary of the endpoint *)

(** A POST request with a JSON content type whose body decodes to the
    [dict] with items [fields]. *)
Definition post (fields : list (string * Json)) : HttpRequest :=
  mkHttpRequest "POST" true (Ret (JObj fields)).

(** The ["fileName"] of a body, when it is a string. *)
Definition requested_file (fields : list (string * Json)) : option string :=
  match json_field "fileName" fields with
  | Some (JStr f) => Some f
  | _ => None
  end.

(** The ["fileName"] of a body is absent, a string, or a value that is
    false in a condition. *)
Definition file_well_typed (fields : list (string * Json)) : Prop :=
  match json_field "fileName" fields with
  | Some (JStr _) => True
  | Some v => json_truthy v = false
  | None => True
  end.

(** The answer that carries the result of a request that was run. *)
Definition answered (result : CompileResponse) : HttpResponse :=
  mkHttpResponse 200
    [("Access-Control-Allow-Origin", "*");
     ("Content-Type", "application/json")] (Some result).

(* ================================================================= *)
(** ** Facts about strings *)

Lemma prefix_iff (p s : string) :
  String.prefix p s = true <-> exists r, s = p ++ r.
Proof.
  revert s; induction p as [|c p IH]; intros s; simpl.
  - destruct s; split; intros; eauto.
  - destruct s as [|d s]; simpl.
    + split; [discriminate | intros [r Hr]; discriminate].
    + destruct (Ascii.ascii_dec c d) as [->|Hcd].
      * rewrite IH. split; intros [r Hr]; exists r; congruence.
      * split; [discriminate | intros [r Hr]; congruence].
Qed.

Lemma contains_unfold (sub s : string) :
  PyStr.contains sub s =
  if String.prefix sub s then true
  else match s with
       | EmptyString => false
       | String _ r => PyStr.contains sub r
       end.
Proof. destruct s; reflexivity. Qed.

Lemma contains_iff (sub s : string) :
  PyStr.contains sub s = true <-> occurs sub s.
Proof.
  unfold occurs. induction s as [|c s IH]; rewrite contains_unfold.
  - destruct (String.prefix sub "") eqn:Hp.
    + apply prefix_iff in Hp. destruct Hp as [r Hr].
      split; auto. intros _. exists "", r. exact Hr.
    + split; [discriminate|]. intros (a & b & Hab).
      destruct a; simpl in Hab.
      * assert (String.prefix sub "" = true) by (apply prefix_iff; eauto).
        congruence.
      * discriminate.
  - destruct (String.prefix sub (String c s)) eqn:Hp.
    + apply prefix_iff in Hp. destruct Hp as [r Hr].
      split; auto. intros _. exists "", r. exact Hr.
    + rewrite IH. split.
      * intros (a & b & Hab). exists (String c a), b. simpl. congruence.
      * intros (a & b & Hab). destruct a as [|d a]; simpl in Hab.
        -- assert (String.prefix sub (String c s) = true)
             by (apply prefix_iff; eauto).
           congruence.
        -- exists a, b. congruence.
Qed.

Lemma mem_iff (x : string) (xs : list string) :
  PyStr.mem x xs = true <-> In x xs.
Proof.
  induction xs as [|y xs IH]; simpl.
  - split; [discriminate | tauto].
  - destruct (String.eqb_spec x y) as [->|Hn].
    + tauto.
    + rewrite IH. split; [tauto | intros [E|I]; [congruence | exact I]].
Qed.

Lemma candidate_passes_iff (env : Env) (command : string) :
  candidate_passes env command = true <-> candidate_succeeds env command.
Proof.
  unfold candidate_passes, candidate_succeeds, candidate_ok, kotlinc_family.
  destruct (spawn env (probe_argv command) None 15) as [r|e].
  - destruct (PyStr.mem command ["kotlinc"; "kotlinc.bat"]) eqn:Hm.
    + apply mem_iff in Hm. simpl in Hm.
      rewrite !orb_true_iff, Z.eqb_eq, !contains_iff. split.
      * intros H. exists r. split; [reflexivity|].
        destruct H as [H|H]; [left; exact H | right; split; [|exact H]].
        destruct Hm as [Hm|[Hm|[]]]; auto.
      * intros (r' & Hr & H). injection Hr as <-. tauto.
    + rewrite Z.eqb_eq. split.
      * intros H. exists r. auto.
      * intros (r' & Hr & [H|[Hk _]]); injection Hr as <-; [exact H|].
        assert (PyStr.mem command ["kotlinc"; "kotlinc.bat"] = true).
        { apply mem_iff. simpl. destruct Hk; auto. }
        congruence.
  - split; [discriminate | intros (r & Hr & _); discriminate].
Qed.

(** What standard output can take. *)
Lemma non_ascii_part_app (a b : string) :
  PyStr.non_ascii_part (a ++ b)
  = PyStr.non_ascii_part a ++ PyStr.non_ascii_part b.
Proof.
  induction a as [|c a IH]; [reflexivity|]. cbn [append PyStr.non_ascii_part].
  destruct (PyStr.is_ascii c); cbn [append]; now rewrite IH.
Qed.

Lemma non_ascii_part_ascii (s : string) :
  PyStr.all_ascii s = true -> PyStr.non_ascii_part s = "".
Proof.
  induction s as [|c r IH]; [reflexivity|].
  cbn [PyStr.all_ascii PyStr.non_ascii_part].
  destruct (PyStr.is_ascii c); [exact IH | discriminate].
Qed.

Lemma printable_utf8 (env : Env) (text : string) :
  utf8_stdout env -> printable env text = true.
Proof.
  intros H. unfold printable. destruct (PyStr.non_ascii_part text); auto.
Qed.

Lemma print_utf8 (env : Env) (text : string) (w : World) :
  utf8_stdout env -> print env text w = (Ret tt, w).
Proof. intros H. unfold print. now rewrite (printable_utf8 _ _ H). Qed.

(* ================================================================= *)
(** ** The event log and the calls that only append to it *)

Lemma logged_nil (w : World) : logged w [] = w.
Proof. destruct w; unfold logged; simpl. now rewrite app_nil_r. Qed.

Lemma logged_logged (w : World) (a b : list Event) :
  logged (logged w a) b = logged w (a ++ b).
Proof. unfold logged; simpl. now rewrite app_assoc. Qed.

Lemma log_eq (e : Event) (w : World) : log e w = (Ret tt, logged w [e]).
Proof. reflexivity. Qed.

Lemma subprocess_run_eq (env : Env) (argv : list string)
    (cwd : option string) (timeout : Z) (w : World) :
  subprocess_run env argv cwd timeout w =
  (launch env argv cwd timeout, logged w (spawn_log argv cwd timeout)).
Proof.
  destruct argv as [|a r]; simpl.
  - unfold raise. now rewrite logged_nil.
  - reflexivity.
Qed.

(** The handlers of [execute_command], applied to a launch. *)
Lemma execute_command_launch (env : Env) (cmd : list string) (cwd : string)
    (timeout : Z) (w : World) :
  execute_command env cmd cwd timeout w =
  (match launch env cmd (Some cwd) timeout with
   | Ret r => Ret (stdout r, stderr r, returncode r)
   | Raise TimeoutExpired => Ret ("", "Execution timed out", 1)
   | Raise (FileNotFoundError m) =>
       match cmd with
       | [] => Raise (IndexError "list index out of range")
       | c :: _ => Ret ("", "Command not found: " ++ c ++ " - " ++ m, 1)
       end
   | Raise e => Ret ("", "Execution error: " ++ str_exn e, 1)
   end,
   logged w (spawn_log cmd (Some cwd) timeout)).
Proof.
  unfold execute_command, try_except, bind.
  rewrite subprocess_run_eq.
  destruct (launch env cmd (Some cwd) timeout) as [r|e]; [reflexivity|].
  destruct e; try reflexivity.
  destruct cmd; reflexivity.
Qed.

Lemma execute_command_eq (env : Env) (cmd : list string) (cwd : string)
    (timeout : Z) (w : World) :
  execute_command env cmd cwd timeout w =
  (command_outcome env cmd cwd timeout,
   logged w (spawn_log cmd (Some cwd) timeout)).
Proof.
  unfold command_outcome. now rewrite !execute_command_launch.
Qed.

Lemma command_outcome_returns (env : Env) (cmd : list string) (cwd : string)
    (timeout : Z) :
  exists out err rc, command_outcome env cmd cwd timeout = Ret (out, err, rc).
Proof.
  unfold command_outcome. rewrite execute_command_launch. simpl.
  destruct cmd as [|c r]; simpl.
  - eauto.
  - destruct (spawn env (c :: r) (Some cwd) timeout) as [p|e]; [eauto|].
    destruct e; eauto.
Qed.

(** *** The probe appends probe launches and nothing else *)

Lemma probe_only_ret {A} (a : A) : probe_only (ret a).
Proof.
  exists (Ret a), []. split; [constructor|].
  intros w. unfold ret. now rewrite logged_nil.
Qed.

Lemma probe_only_print (env : Env) (text : string) :
  probe_only (print env text).
Proof.
  unfold print. destruct (printable env text); [apply probe_only_ret|].
  exists (Raise encode_error), []. split; [constructor|].
  intros w. unfold raise. now rewrite logged_nil.
Qed.

Lemma probe_only_bind {A B} (m : M A) (k : A -> M B) :
  probe_only m -> (forall a, probe_only (k a)) -> probe_only (bind m k).
Proof.
  intros (r & e1 & H1 & Hm) Hk. destruct r as [a|x].
  - destruct (Hk a) as (r2 & e2 & H2 & Hka).
    exists r2, (e1 ++ e2)%list. split; [now apply Forall_app|].
    intros w. unfold bind. now rewrite Hm, Hka, logged_logged.
  - exists (Raise x), e1. split; [exact H1|].
    intros w. unfold bind. now rewrite Hm.
Qed.

Lemma probe_only_try {A} (m : M A) (h : Exn -> M A) :
  probe_only m -> (forall e, probe_only (h e)) -> probe_only (try_except m h).
Proof.
  intros (r & e1 & H1 & Hm) Hh. destruct r as [a|x].
  - exists (Ret a), e1. split; [exact H1|].
    intros w. unfold try_except. now rewrite Hm.
  - destruct (Hh x) as (r2 & e2 & H2 & Hhx).
    exists r2, (e1 ++ e2)%list. split; [now apply Forall_app|].
    intros w. unfold try_except. now rewrite Hm, Hhx, logged_logged.
Qed.

Lemma probe_only_launch (env : Env) (command : string) :
  probe_only (subprocess_run env (probe_argv command) None 15).
Proof.
  exists (spawn env (probe_argv command) None 15),
         [EvSpawn (probe_argv command) None 15].
  split; [constructor; [now exists command | constructor]|].
  intros w. reflexivity.
Qed.

Lemma probe_only_try_candidate (env : Env) (command : string) :
  probe_only (try_candidate env command).
Proof.
  unfold try_candidate.
  apply probe_only_bind; [apply probe_only_print | intros _].
  apply probe_only_bind; [apply probe_only_launch | intros result].
  apply probe_only_bind; [apply probe_only_print | intros _].
  apply probe_only_bind.
  { destruct (PyStr.truthy (stdout result));
      [apply probe_only_print | apply probe_only_ret]. }
  intros _. apply probe_only_bind.
  { destruct (PyStr.truthy (stderr result));
      [apply probe_only_print | apply probe_only_ret]. }
  intros _. destruct (PyStr.mem command ["kotlinc"; "kotlinc.bat"]).
  - destruct (candidate_ok env command result); [|apply probe_only_ret].
    apply probe_only_bind; [apply probe_only_print | intros _].
    apply probe_only_ret.
  - destruct (returncode result =? 0); apply probe_only_ret.
Qed.

Lemma probe_only_skip (env : Env) (command : string) (e : Exn) :
  probe_only (skip_candidate env command e).
Proof.
  destruct e; cbn [skip_candidate];
    (apply probe_only_bind; [apply probe_only_print | intros _]);
    apply probe_only_ret.
Qed.

Lemma probe_only_try_commands (env : Env) (cands : list string) :
  probe_only (try_commands env cands).
Proof.
  induction cands as [|c r IH]; cbn [try_commands]; [apply probe_only_ret|].
  apply probe_only_bind.
  - apply probe_only_try; [apply probe_only_try_candidate|].
    intros e. apply probe_only_skip.
  - intros [|]; [apply probe_only_ret | exact IH].
Qed.

Lemma probe_only_check (env : Env) (cmd : string) :
  probe_only (check_command_exists env cmd).
Proof.
  unfold check_command_exists.
  apply probe_only_try; [apply probe_only_try_commands|].
  intros e. apply probe_only_bind; [apply probe_only_print | intros _].
  apply probe_only_ret.
Qed.

Lemma check_command_exists_frame (env : Env) (cmd : string) (w : World) :
  check_command_exists env cmd w
  = (probe_result env cmd, logged w (probe_log env cmd)).
Proof.
  destruct (probe_only_check env cmd) as (r & evs & _ & H).
  unfold probe_result, probe_log. rewrite !H. reflexivity.
Qed.

Lemma probe_log_are_probes (env : Env) (cmd : string) :
  Forall is_probe (probe_log env cmd).
Proof.
  destruct (probe_only_check env cmd) as (r & evs & Hp & H).
  unfold probe_log. rewrite H. exact Hp.
Qed.

(** Only a failed [print] in a handler leaves the loop as an
    exception. *)
Lemma try_commands_raises (env : Env) (cands : list string) (w w' : World)
    (e : Exn) :
  try_commands env cands w = (Raise e, w') -> e = encode_error.
Proof.
  revert w; induction cands as [|c r IH]; intros w; cbn [try_commands].
  - discriminate.
  - unfold bind at 1, try_except.
    destruct (try_candidate env c w) as [[found|x] w1].
    + destruct found; [discriminate | apply IH].
    + assert (Hs : (exists w2, skip_candidate env c x w1 = (Ret false, w2)) \/
                   (exists w2, skip_candidate env c x w1
                               = (Raise encode_error, w2))).
      { destruct x; cbn [skip_candidate]; unfold bind, print;
          (match goal with
           | |- context [printable env ?t] => destruct (printable env t)
           end; [left | right]); eexists; reflexivity. }
      destruct Hs as [(w2 & ->)|(w2 & ->)].
      * apply IH.
      * intros H; now injection H as <- _.
Qed.

(** A probe for a tool with an ASCII name always answers. *)
Lemma probe_result_ascii (env : Env) (cmd : string) :
  PyStr.all_ascii cmd = true -> probe_result env cmd = Ret (probe env cmd).
Proof.
  intros Ha. unfold probe.
  assert (H : exists b, probe_result env cmd = Ret b);
    [|destruct H as (b & ->); reflexivity].
  unfold probe_result, check_command_exists, try_except.
  destruct (try_commands env (commands_to_try env cmd) (mkWorld [] []))
    as [[b|e] w1] eqn:Ht; [eexists; reflexivity|].
  apply try_commands_raises in Ht. subst e.
  unfold bind, print, printable.
  rewrite !non_ascii_part_app, (non_ascii_part_ascii _ Ha).
  eexists; reflexivity.
Qed.

Lemma check_command_exists_eq (env : Env) (cmd : string) (w : World) :
  PyStr.all_ascii cmd = true ->
  check_command_exists env cmd w
  = (Ret (probe env cmd), logged w (probe_log env cmd)).
Proof.
  intros Ha. now rewrite check_command_exists_frame, (probe_result_ascii _ _ Ha).
Qed.

(** *** The probe on a host whose standard output takes every text *)

Lemma try_commands_utf8 (env : Env) (cands : list string) (w : World) :
  utf8_stdout env ->
  try_commands env cands w =
  (Ret (existsb (candidate_passes env) cands),
   logged w (probe_events (tried env cands))).
Proof.
  intros Hu. revert w; induction cands as [|c r IH]; intros w.
  - simpl. unfold ret. now rewrite logged_nil.
  - cbn [try_commands existsb tried].
    unfold bind at 1, try_except, try_candidate, bind.
    rewrite (print_utf8 _ _ _ Hu), subprocess_run_eq.
    unfold candidate_passes at 1 3. unfold launch, probe_argv.
    destruct (spawn env (c :: version_flags_get c) None 15) as [p|e].
    + rewrite (print_utf8 _ _ _ Hu).
      assert (H1 : forall (b : bool) (t : string) (w0 : World),
                 (if b then print env t else ret tt) w0 = (Ret tt, w0)).
      { intros [] t w0; [now apply print_utf8 | reflexivity]. }
      rewrite !H1.
      destruct (PyStr.mem c ["kotlinc"; "kotlinc.bat"]) eqn:Hm.
      * destruct (candidate_ok env c p) eqn:Hok.
        -- rewrite (print_utf8 _ _ _ Hu). reflexivity.
        -- unfold ret. rewrite IH, logged_logged. reflexivity.
      * unfold candidate_ok. rewrite Hm.
        destruct (returncode p =? 0); unfold ret.
        -- reflexivity.
        -- rewrite IH, logged_logged. reflexivity.
    + assert (Hs : skip_candidate env c e
                     (logged w (spawn_log (c :: version_flags_get c) None 15))
                   = (Ret false,
                      logged w (spawn_log (c :: version_flags_get c) None 15))).
      { destruct e; cbn [skip_candidate]; unfold bind;
          now rewrite (print_utf8 _ _ _ Hu). }
      rewrite Hs, IH, logged_logged. reflexivity.
Qed.

Lemma check_command_exists_utf8 (env : Env) (cmd : string) (w : World) :
  utf8_stdout env ->
  check_command_exists env cmd w =
  (Ret (existsb (candidate_passes env) (commands_to_try env cmd)),
   logged w (probe_events (tried env (commands_to_try env cmd)))).
Proof.
  intros Hu. unfold check_command_exists, try_except.
  now rewrite (try_commands_utf8 _ _ _ Hu).
Qed.

Lemma tried_all (env : Env) (cands : list string) :
  existsb (candidate_passes env) cands = false -> tried env cands = cands.
Proof.
  induction cands as [|c r IH]; simpl; [reflexivity|].
  destruct (candidate_passes env c); simpl; [discriminate|].
  intros H. now rewrite IH.
Qed.

(* ================================================================= *)
(** ** The steps of the orchestrator *)

Lemma kotlin_fallback_eq (env : Env) (lang : string) (config : LanguageConfig)
    (w : World) :
  kotlin_fallback env lang config w =
  if probe env "kotlinc"
  then (Ret (inr config), logged w (kotlin_probe_events env))
  else if probe env "kotlin"
       then (Ret (inr (script_profile config)),
             mkWorld (store lang (script_profile config) (registry w))
                     (trace w ++ kotlin_probe_events env))
       else (Ret (inl (kotlin_missing env)),
             logged w (kotlin_probe_events env)).
Proof.
  unfold kotlin_fallback, bind at 1.
  rewrite (check_command_exists_eq env "kotlinc" _ eq_refl).
  unfold bind at 1.
  rewrite (check_command_exists_eq env "kotlin" _ eq_refl), logged_logged.
  fold (kotlin_probe_events env).
  destruct (probe env "kotlinc"); simpl; [reflexivity|].
  destruct (probe env "kotlin"); reflexivity.
Qed.

Lemma select_profile_unknown (env : Env) (req : CompileRequest) (w : World) :
  lookup (language req) (registry w) = None ->
  select_profile env req w =
  (Ret (inl (mkResponse false ""
               ["Unsupported language: " ++ language req])), w).
Proof.
  intros H. unfold select_profile, bind, get_registry. now rewrite H.
Qed.

Lemma select_profile_known (env : Env) (req : CompileRequest) (w : World)
    (config : LanguageConfig) :
  lookup (language req) (registry w) = Some config ->
  select_profile env req w =
  if String.eqb (language req) "kotlin"
  then kotlin_fallback env (language req) config w
  else (Ret (inr config), w).
Proof.
  intros H. unfold select_profile, bind, get_registry. rewrite H.
  destruct (String.eqb (language req) "kotlin"); reflexivity.
Qed.

(** An early return of the profile selection is a failure. *)
Lemma select_profile_early (env : Env) (req : CompileRequest) (w w1 : World)
    (resp : CompileResponse) :
  select_profile env req w = (Ret (inl resp), w1) -> success resp = false.
Proof.
  destruct (lookup (language req) (registry w)) as [config|] eqn:Hl.
  - rewrite (select_profile_known _ _ _ _ Hl), kotlin_fallback_eq.
    destruct (String.eqb (language req) "kotlin"); [|discriminate].
    destruct (probe env "kotlinc"); [discriminate|].
    destruct (probe env "kotlin"); [discriminate|].
    intros H; injection H as <- _. reflexivity.
  - rewrite (select_profile_unknown _ _ _ Hl).
    intros H; injection H as <- _. reflexivity.
Qed.

Lemma select_profile_returns (env : Env) (req : CompileRequest) (w : World) :
  exists sel w1, select_profile env req w = (Ret sel, w1).
Proof.
  destruct (lookup (language req) (registry w)) as [config|] eqn:Hl.
  - rewrite (select_profile_known _ _ _ _ Hl), kotlin_fallback_eq.
    destruct (String.eqb (language req) "kotlin"); [|eauto].
    destruct (probe env "kotlinc"); [eauto|].
    destruct (probe env "kotlin"); eauto.
  - rewrite (select_profile_unknown _ _ _ Hl). eauto.
Qed.

Lemma run_step_eq (env : Env) (config : LanguageConfig)
    (file_path temp_dir compile_output : string) (w : World)
    (out err : string) (rc : Z) :
  command_outcome env (run_cmd config env file_path temp_dir) temp_dir 30
    = Ret (out, err, rc) ->
  run_step env config file_path temp_dir compile_output w =
  (Ret (format_result compile_output out err rc),
   logged w (spawn_log (run_cmd config env file_path temp_dir)
                       (Some temp_dir) 30)).
Proof.
  intros H. unfold run_step, bind. now rewrite execute_command_eq, H.
Qed.

Lemma build_and_run_interpreted (env : Env) (config : LanguageConfig)
    (file_path temp_dir : string) :
  compile_cmd config = None ->
  build_and_run env config file_path temp_dir =
  run_step env config file_path temp_dir "".
Proof. intros H. unfold build_and_run. now rewrite H. Qed.

Lemma build_and_run_compiled (env : Env) (config : LanguageConfig)
    (gen : CmdGen) (file_path temp_dir : string) (w : World)
    (out err : string) (rc : Z) :
  compile_cmd config = Some gen ->
  command_outcome env (gen env file_path temp_dir) temp_dir 60
    = Ret (out, err, rc) ->
  build_and_run env config file_path temp_dir w =
  if negb (rc =? 0)
  then (Ret (mkResponse false (out ++ err)
               ["Compilation failed with exit code: " ++ PyStr.str_int rc]),
        logged w (spawn_log (gen env file_path temp_dir) (Some temp_dir) 60))
  else run_step env config file_path temp_dir (out ++ err)
         (logged w (spawn_log (gen env file_path temp_dir) (Some temp_dir) 60)).
Proof.
  intros Hc Ho. unfold build_and_run. rewrite Hc. unfold bind.
  rewrite execute_command_eq, Ho.
  destruct (negb (rc =? 0)); reflexivity.
Qed.

(** The workspace block when the code is written: the build and run
    steps happen between creation and cleanup. *)
Lemma in_workspace_written (env : Env) (req : CompileRequest)
    (config : LanguageConfig) (w : World) :
  open_write env (workspace_file env req config) (code req) = None ->
  in_workspace env req config w =
  (fst (build_and_run env config (workspace_file env req config) (mkdtemp env)
          (logged w [EvMkdtemp (mkdtemp env);
                     EvWrite (workspace_file env req config) (code req)])),
   logged (snd (build_and_run env config (workspace_file env req config)
                  (mkdtemp env)
                  (logged w [EvMkdtemp (mkdtemp env);
                             EvWrite (workspace_file env req config)
                                     (code req)])))
          [EvCleanup (mkdtemp env)]).
Proof.
  intros Hw.
  unfold in_workspace, finally, try_except, bind, write_code, ret.
  rewrite Hw, !log_eq, logged_logged. simpl app.
  destruct (build_and_run _ _ _ _ _) as [r w2].
  rewrite log_eq. reflexivity.
Qed.

Lemma in_workspace_write_failed (env : Env) (req : CompileRequest)
    (config : LanguageConfig) (w : World) (e : Exn) :
  open_write env (workspace_file env req config) (code req) = Some e ->
  in_workspace env req config w =
  (Ret (mkResponse false "" ["Failed to write code to file: " ++ str_exn e]),
   logged w [EvMkdtemp (mkdtemp env);
             EvWriteFailed (workspace_file env req config);
             EvCleanup (mkdtemp env)]).
Proof.
  intros Hw.
  unfold in_workspace, finally, try_except, bind, write_code, ret, raise.
  rewrite Hw. unfold bind. rewrite !log_eq, !logged_logged. reflexivity.
Qed.

Lemma lookup_None_iff (lang : string) (reg : Registry) :
  lookup lang reg = None <-> ~ In lang (keys reg).
Proof.
  induction reg as [|[k c] r IH]; simpl.
  - tauto.
  - destruct (String.eqb_spec lang k) as [->|Hn].
    + split; [discriminate | intros H; exfalso; apply H; now left].
    + rewrite IH. split.
      * intros H [E|I]; [congruence | tauto].
      * intros H I. apply H. now right.
Qed.

Lemma format_result_sound (compile_output out err : string) (rc : Z) :
  success (format_result compile_output out err rc) = true ->
  errors (format_result compile_output out err rc) = [].
Proof.
  unfold format_result; simpl.
  destruct (run_errors err rc); [reflexivity|].
  rewrite andb_false_r. discriminate.
Qed.

(** The workspace block always hands back a response, and a successful
    one carries no error. *)
Lemma in_workspace_sound (env : Env) (req : CompileRequest)
    (config : LanguageConfig) (w : World) :
  exists resp w',
    in_workspace env req config w = (Ret resp, w') /\
    (success resp = true -> errors resp = []).
Proof.
  destruct (open_write env (workspace_file env req config) (code req))
    as [e|] eqn:Hw.
  - rewrite (in_workspace_write_failed _ _ _ _ _ Hw).
    do 2 eexists; split; [reflexivity | discriminate].
  - rewrite (in_workspace_written _ _ _ _ Hw).
    set (w2 := logged w _).
    destruct (command_outcome_returns env
                (run_cmd config env (workspace_file env req config)
                   (mkdtemp env)) (mkdtemp env) 30)
      as (ro & re & rrc & Hrun).
    destruct (compile_cmd config) as [gen|] eqn:Hc.
    + destruct (command_outcome_returns env
                  (gen env (workspace_file env req config) (mkdtemp env))
                  (mkdtemp env) 60) as (bo & be & brc & Hb).
      rewrite (build_and_run_compiled _ _ _ _ _ _ _ _ _ Hc Hb).
      destruct (negb (brc =? 0)).
      * do 2 eexists; split; [reflexivity | discriminate].
      * rewrite (run_step_eq _ _ _ _ _ _ _ _ _ Hrun).
        do 2 eexists; split; [reflexivity | apply format_result_sound].
    + rewrite (build_and_run_interpreted _ _ _ _ Hc).
      rewrite (run_step_eq _ _ _ _ _ _ _ _ _ Hrun).
      do 2 eexists; split; [reflexivity | apply format_result_sound].
Qed.

Lemma compile_and_run_code_selected (env : Env) (req : CompileRequest)
    (w w1 : World) (config : LanguageConfig) :
  select_profile env req w = (Ret (inr config), w1) ->
  compile_and_run_code env req w = in_workspace env req config w1.
Proof. intros H. unfold compile_and_run_code, bind. now rewrite H. Qed.

(* ================================================================= *)
(** ** Process runner *)


(* ================================================================= *)
(** ** Toolchain probe *)

(** C6.  The code departs from the claim.  On a host whose standard
    output cannot encode the check mark, [kotlinc -version] completes
    with exit code zero, so the one candidate succeeds as the claim has
    it; yet the line printed on success raises inside the [try], the
    handler of [Exception] takes that for a failure of the candidate,
    and the probe answers [False].  With a standard output that encodes
    every text, the same tool makes the probe answer [True]. *)
Theorem probe_misses_working_kotlinc :
  commands_to_try Scenario.narrow_env "kotlinc" = ["kotlinc"] /\
  spawn Scenario.narrow_env ["kotlinc"; "-version"] None 15
    = Ret (mkCompleted "" "info: kotlinc-jvm 1.9.0" 0) /\
  candidate_succeeds Scenario.narrow_env "kotlinc" /\
  printable Scenario.narrow_env
    (check_mark ++ " kotlinc found and working!") = false /\
  check_command_exists Scenario.narrow_env "kotlinc" initial_world
    = (Ret false,
       mkWorld LANGUAGE_CONFIGS [EvSpawn ["kotlinc"; "-version"] None 15]) /\
  check_command_exists Demo.later_env "kotlinc" initial_world
    = (Ret true,
       mkWorld LANGUAGE_CONFIGS [EvSpawn ["kotlinc"; "-version"] None 15]).
Proof.
  split; [reflexivity|]. split; [reflexivity|]. split.
  - eexists. split; [reflexivity|]. left. reflexivity.
  - split; [reflexivity|]. split; reflexivity.
Qed.

(* ================================================================= *)
(** ** Execution orchestrator: failures *)

(** C5.  A request whose language is not a key of the table is answered
    with [success = False] and the single error "Unsupported language: "
    followed by the identifier itself; the world is left as it was, so
    no temporary directory has been created. *)
Theorem unsupported_language_no_workspace (env : Env) (req : CompileRequest)
    (w : World) :
  ~ In (language req) (keys (registry w)) ->
  exists resp,
    compile_and_run_code env req w = (Ret resp, w) /\
    success resp = false /\
    errors resp = ["Unsupported language: " ++ language req].
Proof.
  intros H. apply lookup_None_iff in H.
  unfold compile_and_run_code, bind.
  rewrite (select_profile_unknown _ _ _ H).
  eexists. split; [reflexivity|]. split; reflexivity.
Qed.

Lemma unsupported_language_no_workspace_witness :
  ~ In (language Demo.ruby_request) (keys (registry initial_world)) /\
  exists resp,
    compile_and_run_code Demo.demo_env Demo.ruby_request initial_world
      = (Ret resp, initial_world) /\
    success resp = false /\
    errors resp = ["Unsupported language: ruby"].
Proof.
  assert (H : ~ In (language Demo.ruby_request)
                   (keys (registry initial_world))).
  { simpl. intros [E|[E|[E|[E|[E|[E|[E|[]]]]]]]]; discriminate E. }
  split; [exact H|].
  exact (unsupported_language_no_workspace Demo.demo_env Demo.ruby_request
           initial_world H).
Defined.



(** C9.  Every request is answered, and an answer with
    [success = True] has an empty error list; put the other way round,
    an answer listing an error has [success = False]. *)
Theorem success_has_no_errors (env : Env) (req : CompileRequest) (w : World) :
  exists resp w',
    compile_and_run_code env req w = (Ret resp, w') /\
    (success resp = true -> errors resp = []) /\
    (errors resp <> [] -> success resp = false).
Proof.
  assert (H : exists resp w',
             compile_and_run_code env req w = (Ret resp, w') /\
             (success resp = true -> errors resp = [])).
  { destruct (select_profile_returns env req w) as ([resp|config] & w1 & Hs).
    - exists resp, w1. split.
      + unfold compile_and_run_code, bind. now rewrite Hs.
      + rewrite (select_profile_early _ _ _ _ _ Hs). discriminate.
    - rewrite (compile_and_run_code_selected _ _ _ _ _ Hs).
      apply in_workspace_sound. }
  destruct H as (resp & w' & Heq & Hok).
  exists resp, w'. repeat split; auto.
  intros Hne. destruct (success resp); [|reflexivity].
  exfalso. apply Hne. now apply Hok.
Qed.

(* ================================================================= *)
(** ** Execution orchestrator: the run step and its report *)

(** A request that reaches the run step is answered with the report
    built from the build output and the outcome of the run command. *)
Lemma run_step_reached (env : Env) (req : CompileRequest) (w : World)
    (config : LanguageConfig) (compile_output out err : string) (rc : Z) :
  reaches_run_step env req w config compile_output ->
  command_outcome env (run_argv env req config) (mkdtemp env) 30
    = Ret (out, err, rc) ->
  exists w',
    compile_and_run_code env req w
      = (Ret (format_result compile_output out err rc), w').
Proof.
  intros ((w1 & Hsel) & Hw & Hb) Hrun. unfold run_argv in Hrun.
  rewrite (compile_and_run_code_selected _ _ _ _ _ Hsel).
  rewrite (in_workspace_written _ _ _ _ Hw).
  destruct (compile_cmd config) as [gen|] eqn:Hc.
  - destruct Hb as (bo & be & Hbo & ->).
    rewrite (build_and_run_compiled _ _ _ _ _ _ _ _ _ Hc Hbo).
    cbn [Z.eqb negb].
    rewrite (run_step_eq _ _ _ _ _ _ _ _ _ Hrun). eexists; reflexivity.
  - subst compile_output.
    rewrite (build_and_run_interpreted _ _ _ _ Hc).
    rewrite (run_step_eq _ _ _ _ _ _ _ _ _ Hrun). eexists; reflexivity.
Qed.

Lemma truthy_iff (s : string) : PyStr.truthy s = true <-> s <> "".
Proof. destruct s; simpl; split; congruence. Qed.

Lemma success_format_result (compile_output out err : string) (rc : Z) :
  success (format_result compile_output out err rc) = true <-> rc = 0.
Proof.
  unfold format_result, run_errors; simpl.
  destruct (Z.eqb_spec rc 0) as [->|Hn]; simpl.
  - tauto.
  - split; [discriminate | contradiction].
Qed.

(** C1, as the code has it.  For a request that reaches the run step,
    the answer has [success = True] exactly when the exit code of the
    run command is zero, whatever the run command wrote to stderr. *)
Theorem success_iff_exit_zero (env : Env) (req : CompileRequest) (w : World)
    (config : LanguageConfig) (compile_output out err : string) (rc : Z) :
  reaches_run_step env req w config compile_output ->
  command_outcome env (run_argv env req config) (mkdtemp env) 30
    = Ret (out, err, rc) ->
  exists resp w',
    compile_and_run_code env req w = (Ret resp, w') /\
    (success resp = true <-> rc = 0).
Proof.
  intros Hreach Hrun.
  destruct (run_step_reached _ _ _ _ _ _ _ _ Hreach Hrun) as (w' & Heq).
  exists (format_result compile_output out err rc), w'.
  split; [exact Heq | apply success_format_result].
Qed.

Lemma python_reaches_run_step :
  reaches_run_step Demo.demo_env Demo.python_request initial_world
    Demo.python_config "".
Proof.
  split; [eexists; reflexivity|]. split; reflexivity.
Defined.

Lemma success_iff_exit_zero_witness :
  exists resp w',
    compile_and_run_code Demo.demo_env Demo.python_request initial_world
      = (Ret resp, w') /\
    (success resp = true <-> 0 = 0).
Proof.
  refine (success_iff_exit_zero Demo.demo_env Demo.python_request
            initial_world Demo.python_config "" "hi" "warn" 0 _ _).
  - exact python_reaches_run_step.
  - reflexivity.
Defined.

(** C1 as stated fails: a Python program that exits with zero after
    writing to stderr is reported with [success = True]. *)
Lemma success_with_stderr_counterexample :
  reaches_run_step Demo.demo_env Demo.python_request initial_world
    Demo.python_config "" /\
  command_outcome Demo.demo_env
    (run_argv Demo.demo_env Demo.python_request Demo.python_config)
    (mkdtemp Demo.demo_env) 30 = Ret ("hi", "warn", 0) /\
  exists resp w',
    compile_and_run_code Demo.demo_env Demo.python_request initial_world
      = (Ret resp, w') /\
    ~ (success resp = true <-> (0 = 0 /\ "warn" = "")).
Proof.
  split; [exact python_reaches_run_step|]. split; [reflexivity|].
  do 2 eexists. split; [reflexivity|].
  cbn [success]. intros [H _]. destruct (H eq_refl) as [_ E]. discriminate E.
Qed.

Lemma append_assoc (a b c : string) : (a ++ b) ++ c = a ++ b ++ c.
Proof. induction a; simpl; congruence. Qed.

Lemma append_nil_r (a : string) : a ++ "" = a.
Proof. induction a; simpl; congruence. Qed.

(** The label that opens the report when no marker does. *)
Lemma unmarked_report_head (out err : string) :
  exists rest, String.concat newline (output_parts "" out err)
               = String "-" rest.
Proof.
  unfold output_parts. cbn [PyStr.truthy app].
  destruct (PyStr.truthy out), (PyStr.truthy err); cbn [negb andb app];
    eexists; cbn [String.concat]; reflexivity.
Qed.

(** The report of a run, given the build output and the run's streams. *)
Lemma output_format_result (compile_output out err : string) (rc : Z) :
  output (format_result compile_output out err rc)
  = String.concat newline (output_parts compile_output out err).
Proof.
  unfold format_result; cbn [output].
  destruct (output_parts compile_output out err) eqn:E; [|reflexivity].
  exfalso. unfold output_parts in E.
  destruct (PyStr.truthy compile_output), (PyStr.truthy out),
    (PyStr.truthy err); discriminate E.
Qed.

Lemma report_sections (compile_output out err : string) :
  let report := String.concat newline (output_parts compile_output out err) in
  (compile_output <> "" ->
   String.prefix ("Compilation successful" ++ newline) report = true) /\
  (compile_output = "" ->
   String.prefix "Compilation successful" report = false) /\
  (out <> "" ->
   occurs ("--- Execution Output ---" ++ newline ++ PyStr.strip out) report) /\
  (err <> "" ->
   exists pre,
     report = pre ++ "--- Execution Error ---" ++ newline ++ PyStr.strip err) /\
  (out = "" -> err = "" -> exists pre, report = pre ++ "--- No Output ---").
Proof.
  cbv zeta. repeat split.
  - intros H. apply truthy_iff in H. unfold output_parts. rewrite H.
    apply prefix_iff.
    destruct (PyStr.truthy out), (PyStr.truthy err); cbn [negb andb app];
      eexists; cbn [String.concat]; rewrite append_assoc; reflexivity.
  - intros ->. destruct (unmarked_report_head out err) as (rest & ->).
    reflexivity.
  - intros H. apply truthy_iff in H. unfold output_parts, occurs. rewrite H.
    remember (PyStr.strip out) as so. remember (PyStr.strip err) as se.
    destruct (PyStr.truthy compile_output), (PyStr.truthy err);
      cbn [negb andb app String.concat].
    + exists ("Compilation successful" ++ newline),
             (newline ++ "--- Execution Error ---" ++ newline ++ se).
      now rewrite !append_assoc.
    + exists ("Compilation successful" ++ newline), "".
      now rewrite !append_assoc, append_nil_r.
    + exists "", (newline ++ "--- Execution Error ---" ++ newline ++ se).
      now rewrite !append_assoc.
    + exists "", "". now rewrite !append_assoc, append_nil_r.
  - intros H. apply truthy_iff in H. unfold output_parts. rewrite H.
    remember (PyStr.strip out) as so. remember (PyStr.strip err) as se.
    destruct (PyStr.truthy compile_output), (PyStr.truthy out);
      cbn [negb andb app String.concat].
    + exists ("Compilation successful" ++ newline
              ++ "--- Execution Output ---" ++ newline ++ so ++ newline).
      now rewrite !append_assoc.
    + exists ("Compilation successful" ++ newline).
      now rewrite !append_assoc.
    + exists ("--- Execution Output ---" ++ newline ++ so ++ newline).
      now rewrite !append_assoc.
    + exists "". reflexivity.
  - intros -> ->. unfold output_parts.
    destruct (PyStr.truthy compile_output); cbn.
    + exists ("Compilation successful" ++ newline). reflexivity.
    + exists "". reflexivity.
Qed.

(** C7, as the code has it.  For a request that reaches the run step:
    when the build wrote something to stdout or stderr the report starts
    with "Compilation successful"; when the build wrote nothing, or
    there was no build, it does not.  When the run's stdout is not empty
    the report holds the line "--- Execution Output ---" followed by the
    stripped stdout; when its stderr is not empty the report ends with
    the line "--- Execution Error ---" followed by the stripped stderr;
    when both are empty the report ends with "--- No Output ---". *)
Theorem report_assembly (env : Env) (req : CompileRequest) (w : World)
    (config : LanguageConfig) (compile_output out err : string) (rc : Z) :
  reaches_run_step env req w config compile_output ->
  command_outcome env (run_argv env req config) (mkdtemp env) 30
    = Ret (out, err, rc) ->
  exists resp w',
    compile_and_run_code env req w = (Ret resp, w') /\
    (compile_output <> "" ->
     String.prefix ("Compilation successful" ++ newline) (output resp)
       = true) /\
    (compile_output = "" ->
     String.prefix "Compilation successful" (output resp) = false) /\
    (out <> "" ->
     occurs ("--- Execution Output ---" ++ newline ++ PyStr.strip out)
            (output resp)) /\
    (err <> "" ->
     exists pre,
       output resp
         = pre ++ "--- Execution Error ---" ++ newline ++ PyStr.strip err) /\
    (out = "" -> err = "" ->
     exists pre, output resp = pre ++ "--- No Output ---").
Proof.
  intros Hreach Hrun.
  destruct (run_step_reached _ _ _ _ _ _ _ _ Hreach Hrun) as (w' & Heq).
  exists (format_result compile_output out err rc), w'.
  split; [exact Heq|]. rewrite output_format_result.
  exact (report_sections compile_output out err).
Qed.

Lemma c_reaches_run_step :
  reaches_run_step Demo.demo_env Demo.c_request initial_world
    Demo.c_config "".
Proof.
  split; [eexists; reflexivity|]. split; [reflexivity|].
  exists "", "". split; reflexivity.
Defined.

Lemma report_assembly_witness :
  exists resp w',
    compile_and_run_code Demo.demo_env Demo.c_request initial_world
      = (Ret resp, w') /\
    ("" <> "" ->
     String.prefix ("Compilation successful" ++ newline) (output resp)
       = true) /\
    ("" = "" ->
     String.prefix "Compilation successful" (output resp) = false) /\
    ("out" <> "" ->
     occurs ("--- Execution Output ---" ++ newline ++ PyStr.strip "out")
            (output resp)) /\
    ("" <> "" ->
     exists pre,
       output resp
         = pre ++ "--- Execution Error ---" ++ newline ++ PyStr.strip "") /\
    ("out" = "" -> "" = "" ->
     exists pre, output resp = pre ++ "--- No Output ---").
Proof.
  refine (report_assembly Demo.demo_env Demo.c_request initial_world
            Demo.c_config "" "out" "" 0 _ _).
  - exact c_reaches_run_step.
  - reflexivity.
Defined.

(** C7 as stated fails: a C program whose build prints nothing is built
    and run, and its report carries no success marker. *)
Lemma silent_build_counterexample :
  reaches_run_step Demo.demo_env Demo.c_request initial_world
    Demo.c_config "" /\
  exists resp w',
    compile_and_run_code Demo.demo_env Demo.c_request initial_world
      = (Ret resp, w') /\
    In (EvSpawn ["gcc"; "/tmp/tmpab12cd/main.c"; "-o";
                 "/tmp/tmpab12cd/program.exe"] (Some "/tmp/tmpab12cd") 60)
       (trace w') /\
    ~ (compile_cmd Demo.c_config <> None ->
       String.prefix "Compilation successful" (output resp) = true).
Proof.
  split; [exact c_reaches_run_step|].
  do 2 eexists. split; [reflexivity|]. split; [cbn; tauto|].
  intros H. assert (E : compile_cmd Demo.c_config <> None) by discriminate.
  apply H in E. vm_compute in E. discriminate E.
Qed.

(* ================================================================= *)
(** ** Capability reporter *)

Lemma answers_iff (env : Env) (cmd : string) (b : bool) :
  PyStr.all_ascii cmd = true ->
  (answers env cmd b <-> probe env cmd = b).
Proof.
  intros Ha. unfold answers. split.
  - intros H. specialize (H initial_world).
    rewrite (check_command_exists_eq _ _ _ Ha) in H. cbn [fst] in H.
    congruence.
  - intros <- w. now rewrite (check_command_exists_eq _ _ _ Ha).
Qed.

Lemma languages_loop_eq (env : Env) (ks languages : list string) (w : World) :
  exists w',
    languages_loop env ks languages w
      = (Ret (languages ++ filter (listed env) ks)%list, w') /\
    registry w' = registry w.
Proof.
  revert languages w; induction ks as [|k r IH]; intros languages w.
  - exists w. simpl. unfold ret. now rewrite app_nil_r.
  - cbn [languages_loop filter]. unfold listed at 1.
    destruct (String.eqb k "kotlin"); cbn [negb orb].
    + unfold bind at 1.
      rewrite (check_command_exists_eq env "kotlinc" _ eq_refl).
      destruct (probe env "kotlinc"); cbn [orb].
      * unfold bind, ret.
        destruct (IH (languages ++ [k])%list
                     (logged w (probe_log env "kotlinc")))
          as (w' & -> & Hr).
        exists w'. rewrite <- app_assoc. auto.
      * unfold bind at 1.
        rewrite (check_command_exists_eq env "kotlin" _ eq_refl).
        destruct (probe env "kotlin").
        -- destruct (IH (languages ++ [k])%list
                        (logged (logged w (probe_log env "kotlinc"))
                                (probe_log env "kotlin")))
             as (w' & -> & Hr).
           exists w'. rewrite <- app_assoc. auto.
        -- destruct (IH languages
                        (logged (logged w (probe_log env "kotlinc"))
                                (probe_log env "kotlin")))
             as (w' & -> & Hr).
           exists w'. auto.
    + destruct (IH (languages ++ [k])%list w) as (w' & -> & Hr).
      exists w'. rewrite <- app_assoc. auto.
Qed.

(** C8.  The listing always answers.  Every key of the table other than
    "kotlin" is in it; "kotlin" is in it exactly when it is a key of the
    table and the probe of [kotlinc] or the probe of [kotlin] answers
    [True] at that moment; nothing else is in it. *)
Theorem listing_membership (env : Env) (w : World) :
  exists langs w',
    get_supported_languages env w = (Ret langs, w') /\
    forall lang,
      In lang langs <->
      In lang (keys (registry w)) /\
      (lang = "kotlin" ->
       answers env "kotlinc" true \/ answers env "kotlin" true).
Proof.
  unfold get_supported_languages, bind, get_registry.
  destruct (languages_loop_eq env (keys (registry w)) [] w) as (w' & -> & _).
  do 2 eexists. split; [reflexivity|].
  intros lang. cbn [app]. rewrite filter_In, !answers_iff by reflexivity.
  unfold listed.
  destruct (String.eqb_spec lang "kotlin") as [->|Hn]; cbn [negb orb].
  - rewrite orb_true_iff. tauto.
  - tauto.
Qed.

(* ================================================================= *)
(** ** The Kotlin fallback and the shared table *)

Lemma lookup_store (lang : string) (c c0 : LanguageConfig) (reg : Registry) :
  lookup lang reg = Some c0 -> lookup lang (store lang c reg) = Some c.
Proof.
  induction reg as [|[k d] r IH]; simpl; [discriminate|].
  destruct (String.eqb lang k) eqn:E; simpl; rewrite E; auto.
Qed.

(** The workspace block leaves the table as it finds it. *)
Lemma in_workspace_registry (env : Env) (req : CompileRequest)
    (config : LanguageConfig) (w : World) :
  registry (snd (in_workspace env req config w)) = registry w.
Proof.
  destruct (open_write env (workspace_file env req config) (code req))
    as [e|] eqn:Hw.
  - now rewrite (in_workspace_write_failed _ _ _ _ _ Hw).
  - rewrite (in_workspace_written _ _ _ _ Hw). cbn [snd].
    set (w2 := logged w _).
    destruct (command_outcome_returns env
                (run_cmd config env (workspace_file env req config)
                   (mkdtemp env)) (mkdtemp env) 30)
      as (ro & re & rrc & Hrun).
    destruct (compile_cmd config) as [gen|] eqn:Hc.
    + destruct (command_outcome_returns env
                  (gen env (workspace_file env req config) (mkdtemp env))
                  (mkdtemp env) 60) as (bo & be & brc & Hb).
      rewrite (build_and_run_compiled _ _ _ _ _ _ _ _ _ Hc Hb).
      destruct (negb (brc =? 0)); [reflexivity|].
      now rewrite (run_step_eq _ _ _ _ _ _ _ _ _ Hrun).
    + rewrite (build_and_run_interpreted _ _ _ _ Hc).
      now rewrite (run_step_eq _ _ _ _ _ _ _ _ _ Hrun).
Qed.

(** X22.  What a Kotlin request leaves in the table when only the
    script runner answers: the entry without a build step and with the
    script invocation as its run step. *)
Lemma kotlin_fallback_stored (env : Env) (req : CompileRequest) (w : World)
    (config : LanguageConfig) :
  language req = "kotlin" ->
  lookup "kotlin" (registry w) = Some config ->
  answers env "kotlinc" false ->
  answers env "kotlin" true ->
  lookup "kotlin" (registry (snd (compile_and_run_code env req w)))
    = Some (script_profile config).
Proof.
  intros Hl Hc Ha Hb.
  apply answers_iff in Ha; [|reflexivity].
  apply answers_iff in Hb; [|reflexivity].
  assert (Hs : select_profile env req w =
               (Ret (inr (script_profile config)),
                mkWorld (store "kotlin" (script_profile config) (registry w))
                        (trace w ++ kotlin_probe_events env))).
  { rewrite <- Hl in Hc. rewrite (select_profile_known _ _ _ _ Hc).
    rewrite Hl. cbn [String.eqb Ascii.eqb Bool.eqb].
    now rewrite kotlin_fallback_eq, Ha, Hb. }
  rewrite (compile_and_run_code_selected _ _ _ _ _ Hs).
  rewrite in_workspace_registry. cbn [registry].
  now apply lookup_store with (c0 := config).
Qed.

(** C2.  The code departs from the claim.  On a host where [kotlinc]
    does not answer and [kotlin] does, a Kotlin request leaves the
    shared table changed: the Kotlin entry has lost its build step and
    runs the script invocation.  A later Kotlin request, on a host where
    [kotlinc] answers and [kotlin] is gone, then skips the build, runs
    the script invocation and fails, while the same request against the
    original table builds with [kotlinc] and runs the archive. *)
Theorem kotlin_fallback_outlives_request :
  lookup "kotlin" (registry initial_world) = Some Demo.kotlin_config /\
  answers Demo.demo_env "kotlinc" false /\
  answers Demo.demo_env "kotlin" true /\
  lookup "kotlin" (registry Demo.after_fallback)
    = Some (mkLanguageConfig ".kt" None kotlin_interpret_cmd "Main.kt") /\
  answers Demo.later_env "kotlinc" true /\
  compile_and_run_code Demo.later_env Demo.kotlin_request Demo.later_world =
  (Ret (mkResponse false
          ("--- Execution Error ---" ++ newline
           ++ "Command not found: kotlin - "
           ++ "[Errno 2] No such file or directory")
          ["Execution failed with exit code: 1"]),
   mkWorld (registry Demo.after_fallback)
     [EvSpawn ["kotlinc"; "-version"] None 15;
      EvSpawn ["kotlin"; "-version"] None 15;
      EvMkdtemp "/tmp/tmpef34gh";
      EvWrite "/tmp/tmpef34gh/Main.kt" "fun main() { println(1) }";
      EvSpawn ["kotlin"; "-script"; "/tmp/tmpef34gh/Main.kt"]
        (Some "/tmp/tmpef34gh") 30;
      EvCleanup "/tmp/tmpef34gh"]) /\
  compile_and_run_code Demo.later_env Demo.kotlin_request initial_world =
  (Ret (mkResponse true ("--- Execution Output ---" ++ newline ++ "out") []),
   mkWorld LANGUAGE_CONFIGS
     [EvSpawn ["kotlinc"; "-version"] None 15;
      EvSpawn ["kotlin"; "-version"] None 15;
      EvMkdtemp "/tmp/tmpef34gh";
      EvWrite "/tmp/tmpef34gh/Main.kt" "fun main() { println(1) }";
      EvSpawn ["kotlinc"; "/tmp/tmpef34gh/Main.kt"; "-include-runtime";
               "-d"; "/tmp/tmpef34gh/program.jar"]
        (Some "/tmp/tmpef34gh") 60;
      EvSpawn ["java"; "-jar"; "/tmp/tmpef34gh/program.jar"]
        (Some "/tmp/tmpef34gh") 30;
      EvCleanup "/tmp/tmpef34gh"]).
Proof.
  split; [reflexivity|].
  split; [apply answers_iff; reflexivity|].
  split; [apply answers_iff; reflexivity|].
  split; [reflexivity|].
  split; [apply answers_iff; reflexivity|].
  split; reflexivity.
Qed.

(* ================================================================= *)
(** ** The target file name *)

(** A non-empty [fileName] is joined to the workspace directory as it
    is. *)
Lemma fileName_verbatim (env : Env) (req : CompileRequest)
    (config : LanguageConfig) (f : string) :
  fileName req = Some f -> f <> "" ->
  workspace_file env req config = path_join (os_path env) (mkdtemp env) f.
Proof.
  intros Hf Hne. unfold workspace_file, target_filename. rewrite Hf.
  apply truthy_iff in Hne. now rewrite Hne.
Qed.

(** C10.  There is a request whose [fileName] takes the written file
    out of the workspace: with "../escape.py" on a POSIX host the code
    is written to the path obtained by joining the workspace directory
    and the name unchanged; that path is not inside the workspace
    directory, and after the request, cleanup included, the file is
    still there, next to the workspace. *)
Theorem fileName_escapes_workspace :
  fileName Demo.escaping_request = Some "../escape.py" /\
  exists resp w',
    compile_and_run_code Demo.demo_env Demo.escaping_request initial_world
      = (Ret resp, w') /\
    In (EvWrite (Posix.join (mkdtemp Demo.demo_env) "../escape.py")
                (code Demo.escaping_request)) (trace w') /\
    In (EvCleanup (mkdtemp Demo.demo_env)) (trace w') /\
    Posix.inside (mkdtemp Demo.demo_env)
      (Posix.join (mkdtemp Demo.demo_env) "../escape.py") = false /\
    Posix.file_at (Posix.run [] (trace w')) "/tmp/escape.py"
      = Some (code Demo.escaping_request).
Proof.
  split; [reflexivity|].
  do 2 eexists. split; [reflexivity|].
  split; [cbn; tauto|]. split; [cbn; tauto|]. split; reflexivity.
Qed.

(** By contrast, the file of a request without [fileName] is inside the
    workspace and is gone once the request has been served. *)
Lemma default_file_cleaned :
  Posix.inside (mkdtemp Demo.demo_env)
    (workspace_file Demo.demo_env Demo.python_request Demo.python_config)
    = true /\
  Posix.run []
    (trace (snd (compile_and_run_code Demo.demo_env Demo.python_request
                   initial_world))) = [].
Proof. split; reflexivity. Qed.

(* ================================================================= *)
(** ** The shape of a request's event log *)

Lemma probe_events_are_probes (cands : list string) :
  Forall is_probe (probe_events cands).
Proof.
  unfold probe_events. apply Forall_forall. intros e He.
  apply in_map_iff in He. destruct He as (c & <- & _). now exists c.
Qed.

Lemma kotlin_probe_events_are_probes (env : Env) :
  Forall is_probe (kotlin_probe_events env).
Proof.
  unfold kotlin_probe_events. apply Forall_app.
  split; apply probe_log_are_probes.
Qed.

(** Selecting the profile only appends probe launches to the log. *)
Lemma select_profile_trace (env : Env) (req : CompileRequest) (w : World) :
  exists sel w1 probes,
    select_profile env req w = (Ret sel, w1) /\
    trace w1 = (trace w ++ probes)%list /\
    Forall is_probe probes.
Proof.
  destruct (lookup (language req) (registry w)) as [config|] eqn:Hl.
  - rewrite (select_profile_known _ _ _ _ Hl), kotlin_fallback_eq.
    destruct (String.eqb (language req) "kotlin").
    + destruct (probe env "kotlinc"); [|destruct (probe env "kotlin")];
        do 3 eexists; (split; [reflexivity|]);
        (split; [reflexivity | apply kotlin_probe_events_are_probes]).
    + exists (inr config), w, []. rewrite app_nil_r. auto.
  - rewrite (select_profile_unknown _ _ _ Hl).
    do 2 eexists. exists []. rewrite app_nil_r. auto.
Qed.

Lemma spawn_log_at_most_one (argv : list string) (d : string) (t : Z) :
  at_most_one_launch d t (spawn_log argv (Some d) t).
Proof.
  destruct argv as [|a r]; [now left | right; now exists (a :: r)].
Qed.

(** The log of the workspace block: creation, activity, cleanup. *)
Lemma in_workspace_trace (env : Env) (req : CompileRequest)
    (config : LanguageConfig) (w : World) :
  exists mid,
    trace (snd (in_workspace env req config w))
      = (trace w ++ EvMkdtemp (mkdtemp env) :: mid
                 ++ [EvCleanup (mkdtemp env)])%list /\
    workspace_activity (mkdtemp env) (code req) mid.
Proof.
  set (d := mkdtemp env). set (file := workspace_file env req config).
  destruct (open_write env file (code req)) as [e|] eqn:Hw.
  - unfold file in Hw. rewrite (in_workspace_write_failed _ _ _ _ _ Hw).
    exists [EvWriteFailed file].
    split; [reflexivity | left; eauto].
  - unfold file in Hw. rewrite (in_workspace_written _ _ _ _ Hw). cbn [snd].
    fold d file.
    destruct (command_outcome_returns env (run_cmd config env file d) d 30)
      as (ro & re & rrc & Hrun).
    destruct (compile_cmd config) as [gen|] eqn:Hc.
    + destruct (command_outcome_returns env (gen env file d) d 60)
        as (bo & be & brc & Hb).
      rewrite (build_and_run_compiled _ _ _ _ _ _ _ _ _ Hc Hb).
      destruct (negb (brc =? 0)).
      * cbn [snd]. rewrite !logged_logged.
        exists (EvWrite file (code req)
                  :: spawn_log (gen env file d) (Some d) 60)%list.
        split.
        -- cbn [logged trace app]. now rewrite <- ?app_assoc.
        -- right. exists file, (spawn_log (gen env file d) (Some d) 60), [].
           split; [now rewrite app_nil_r|].
           split; [apply spawn_log_at_most_one | now left].
      * rewrite (run_step_eq _ _ _ _ _ _ _ _ _ Hrun). cbn [snd].
        rewrite !logged_logged.
        exists (EvWrite file (code req)
                  :: spawn_log (gen env file d) (Some d) 60
                  ++ spawn_log (run_cmd config env file d) (Some d) 30)%list.
        split.
        -- cbn [logged trace app]. now rewrite <- ?app_assoc.
        -- right. exists file. do 2 eexists. split; [reflexivity|].
           split; apply spawn_log_at_most_one.
    + rewrite (build_and_run_interpreted _ _ _ _ Hc).
      rewrite (run_step_eq _ _ _ _ _ _ _ _ _ Hrun). cbn [snd].
      rewrite !logged_logged.
      exists (EvWrite file (code req)
                :: spawn_log (run_cmd config env file d) (Some d) 30)%list.
      split.
      * cbn [logged trace app]. now rewrite <- ?app_assoc.
      * right. exists file, [].
        exists (spawn_log (run_cmd config env file d) (Some d) 30).
        split; [reflexivity|].
        split; [now left | apply spawn_log_at_most_one].
Qed.

(** X1.  Whatever the request, it appends to the log some probe
    launches and then either nothing or exactly one workspace episode:
    the creation of the temporary directory, the write of the code (or
    its failure), at most one launch with the 60 s build deadline
    followed by at most one launch with the 30 s run deadline, both in
    that directory, and last the cleanup of the same directory. *)
Theorem request_log_shape (env : Env) (req : CompileRequest) (w : World) :
  exists probes body,
    trace (snd (compile_and_run_code env req w))
      = (trace w ++ probes ++ body)%list /\
    Forall is_probe probes /\
    (body = [] \/
     exists mid,
       body = (EvMkdtemp (mkdtemp env) :: mid
                 ++ [EvCleanup (mkdtemp env)])%list /\
       workspace_activity (mkdtemp env) (code req) mid).
Proof.
  destruct (select_profile_trace env req w)
    as ([resp|config] & w1 & probes & Hs & Ht & Hp).
  - exists probes, []. unfold compile_and_run_code, bind. rewrite Hs.
    cbn [snd ret]. rewrite app_nil_r. auto.
  - rewrite (compile_and_run_code_selected _ _ _ _ _ Hs).
    destruct (in_workspace_trace env req config w1) as (mid & Hm & Ha).
    exists probes. eexists. split; [|split; [exact Hp|]].
    + rewrite Hm, Ht, <- app_assoc. reflexivity.
    + right. exists mid. auto.
Qed.

(* ================================================================= *)
(** ** Failures before and during the workspace *)

(** X2.  When the code cannot be written, the request is answered with
    [success = False], empty output and the single error "Failed to
    write code to file: " followed by the text of the exception; nothing
    is launched, and the workspace is cleaned up all the same. *)
Theorem write_failure_reported (env : Env) (req : CompileRequest)
    (w w1 : World) (config : LanguageConfig) (e : Exn) :
  select_profile env req w = (Ret (inr config), w1) ->
  open_write env (workspace_file env req config) (code req) = Some e ->
  compile_and_run_code env req w =
  (Ret (mkResponse false "" ["Failed to write code to file: " ++ str_exn e]),
   logged w1 [EvMkdtemp (mkdtemp env);
              EvWriteFailed (workspace_file env req config);
              EvCleanup (mkdtemp env)]).
Proof.
  intros Hsel Hw.
  rewrite (compile_and_run_code_selected _ _ _ _ _ Hsel).
  now apply in_workspace_write_failed.
Qed.

Lemma write_failure_reported_witness :
  compile_and_run_code Scenario.readonly_env Demo.python_request initial_world
  = (Ret (mkResponse false ""
            ["Failed to write code to file: [Errno 30] Read-only file system"]),
     mkWorld LANGUAGE_CONFIGS
       [EvMkdtemp "/tmp/tmpro00fs";
        EvWriteFailed "/tmp/tmpro00fs/main.py";
        EvCleanup "/tmp/tmpro00fs"]).
Proof.
  refine (write_failure_reported Scenario.readonly_env Demo.python_request
            initial_world initial_world Demo.python_config
            (OtherException "[Errno 30] Read-only file system") _ _).
  - reflexivity.
  - reflexivity.
Defined.

(** X3.  A Kotlin request on a host where neither [kotlinc] nor
    [kotlin] answers fails at once: [success = False], empty output,
    five diagnostic lines headed by "Kotlin compiler not found.
    Troubleshooting info:"; the table is unchanged and only the probes
    have been launched, so no workspace is created. *)
Theorem kotlin_unavailable_fails_fast (env : Env) (req : CompileRequest)
    (w : World) (config : LanguageConfig) :
  language req = "kotlin" ->
  lookup "kotlin" (registry w) = Some config ->
  answers env "kotlinc" false ->
  answers env "kotlin" false ->
  exists resp w' probes,
    compile_and_run_code env req w = (Ret resp, w') /\
    success resp = false /\ output resp = "" /\
    length (errors resp) = 5%nat /\
    hd "" (errors resp) = "Kotlin compiler not found. Troubleshooting info:" /\
    registry w' = registry w /\
    trace w' = (trace w ++ probes)%list /\ Forall is_probe probes.
Proof.
  intros Hl Hc Ha Hb.
  apply answers_iff in Ha; [|reflexivity].
  apply answers_iff in Hb; [|reflexivity].
  rewrite <- Hl in Hc.
  unfold compile_and_run_code, bind.
  rewrite (select_profile_known _ _ _ _ Hc), Hl.
  cbn [String.eqb Ascii.eqb Bool.eqb].
  rewrite kotlin_fallback_eq, Ha, Hb.
  exists (kotlin_missing env), (logged w (kotlin_probe_events env)),
         (kotlin_probe_events env).
  repeat split. apply kotlin_probe_events_are_probes.
Qed.

Lemma kotlin_unavailable_fails_fast_witness :
  exists resp w' probes,
    compile_and_run_code Scenario.bare_env Demo.kotlin_request initial_world
      = (Ret resp, w') /\
    success resp = false /\ output resp = "" /\
    length (errors resp) = 5%nat /\
    hd "" (errors resp) = "Kotlin compiler not found. Troubleshooting info:" /\
    registry w' = registry initial_world /\
    trace w' = (trace initial_world ++ probes)%list /\
    Forall is_probe probes.
Proof.
  refine (kotlin_unavailable_fails_fast Scenario.bare_env Demo.kotlin_request
            initial_world Demo.kotlin_config _ _ _ _).
  - reflexivity.
  - reflexivity.
  - intros w. reflexivity.
  - intros w. reflexivity.
Defined.

(* ================================================================= *)
(** ** What a request does to the shared table *)

Lemma keys_store (lang : string) (c : LanguageConfig) (reg : Registry) :
  keys (store lang c reg) = keys reg.
Proof.
  unfold keys. induction reg as [|[k d] r IH]; simpl; [reflexivity|].
  destruct (String.eqb lang k); simpl; congruence.
Qed.

Lemma lookup_store_other (lang other : string) (c : LanguageConfig)
    (reg : Registry) :
  other <> lang -> lookup other (store lang c reg) = lookup other reg.
Proof.
  intros Hn. induction reg as [|[k d] r IH]; simpl; [reflexivity|].
  destruct (String.eqb_spec lang k) as [->|Hk]; simpl.
  - destruct (String.eqb_spec other k); [contradiction | reflexivity].
  - destruct (String.eqb other k); [reflexivity | exact IH].
Qed.

(** The table after a request: the one before, or the one before with
    the script profile stored under "kotlin". *)
Lemma registry_after_request (env : Env) (req : CompileRequest) (w : World) :
  registry (snd (compile_and_run_code env req w)) = registry w \/
  (language req = "kotlin" /\
   probe env "kotlinc" = false /\ probe env "kotlin" = true /\
   exists config,
     lookup "kotlin" (registry w) = Some config /\
     registry (snd (compile_and_run_code env req w))
       = store "kotlin" (script_profile config) (registry w)).
Proof.
  destruct (lookup (language req) (registry w)) as [config|] eqn:Hl.
  - pose proof (select_profile_known env _ _ _ Hl) as Hs.
    destruct (String.eqb_spec (language req) "kotlin") as [Hk|Hk].
    + rewrite kotlin_fallback_eq in Hs.
      destruct (probe env "kotlinc") eqn:Ha;
        [|destruct (probe env "kotlin") eqn:Hb].
      * left. rewrite (compile_and_run_code_selected _ _ _ _ _ Hs).
        now rewrite in_workspace_registry.
      * right. rewrite (compile_and_run_code_selected _ _ _ _ _ Hs).
        rewrite in_workspace_registry. cbn [registry].
        rewrite Hk in *. repeat split. exists config. auto.
      * left. unfold compile_and_run_code, bind. now rewrite Hs.
    + left. rewrite (compile_and_run_code_selected _ _ _ _ _ Hs).
      now rewrite in_workspace_registry.
  - left. unfold compile_and_run_code, bind.
    now rewrite (select_profile_unknown _ _ _ Hl).
Qed.

(** X4.  A request leaves the table exactly as it found it unless it is
    a Kotlin request served while [kotlinc] does not answer and
    [kotlin] does. *)
Theorem table_untouched (env : Env) (req : CompileRequest) (w : World) :
  language req <> "kotlin" \/ answers env "kotlinc" true
    \/ answers env "kotlin" false ->
  registry (snd (compile_and_run_code env req w)) = registry w.
Proof.
  intros H.
  destruct (registry_after_request env req w)
    as [E|(Hk & Ha & Hb & _)]; [exact E|].
  rewrite !answers_iff in H by reflexivity.
  destruct H as [H|[H|H]]; [contradiction | congruence | congruence].
Qed.

Lemma table_untouched_witness :
  registry (snd (compile_and_run_code Demo.later_env Demo.kotlin_request
                   initial_world)) = registry initial_world.
Proof.
  refine (table_untouched Demo.later_env Demo.kotlin_request initial_world _).
  right. left. intros w. reflexivity.
Defined.

(** X5.  No request adds, removes or reorders the languages of the
    table, and the entry of every language other than "kotlin" is after
    the request what it was before. *)
Theorem table_keys_stable (env : Env) (req : CompileRequest) (w : World) :
  keys (registry (snd (compile_and_run_code env req w))) = keys (registry w) /\
  forall lang,
    lang <> "kotlin" ->
    lookup lang (registry (snd (compile_and_run_code env req w)))
      = lookup lang (registry w).
Proof.
  destruct (registry_after_request env req w)
    as [E|(_ & _ & _ & config & _ & E)]; rewrite E.
  - auto.
  - split; [apply keys_store|].
    intros lang Hn. now apply lookup_store_other.
Qed.

Lemma kotlin_fallback_stored_witness :
  lookup "kotlin"
    (registry (snd (compile_and_run_code Demo.demo_env Demo.kotlin_request
                      initial_world)))
  = Some (script_profile Demo.kotlin_config).
Proof.
  refine (kotlin_fallback_stored Demo.demo_env Demo.kotlin_request
            initial_world Demo.kotlin_config _ _ _ _).
  - reflexivity.
  - reflexivity.
  - intros w. reflexivity.
  - intros w. reflexivity.
Defined.

(* ================================================================= *)
(** ** The error list and the deadlines of the run and build steps *)

Lemma errors_format_result (compile_output out err : string) (rc : Z) :
  errors (format_result compile_output out err rc) = run_errors err rc.
Proof. reflexivity. Qed.

(** X6.  For a request that reaches the run step, the error list holds
    the single entry "Execution failed with exit code: " followed by the
    code when the exit code is not zero and stderr is not empty, and is
    empty otherwise; so a run that exits with a non-zero code and writes
    nothing to stderr is answered with [success = False] and no error
    at all. *)
Theorem run_failure_errors (env : Env) (req : CompileRequest) (w : World)
    (config : LanguageConfig) (compile_output out err : string) (rc : Z) :
  reaches_run_step env req w config compile_output ->
  command_outcome env (run_argv env req config) (mkdtemp env) 30
    = Ret (out, err, rc) ->
  exists resp w',
    compile_and_run_code env req w = (Ret resp, w') /\
    (rc <> 0 -> err <> "" ->
     errors resp = ["Execution failed with exit code: " ++ PyStr.str_int rc]) /\
    (rc = 0 \/ err = "" -> errors resp = []) /\
    (rc <> 0 -> err = "" -> success resp = false /\ errors resp = []).
Proof.
  intros Hreach Hrun.
  destruct (run_step_reached _ _ _ _ _ _ _ _ Hreach Hrun) as (w' & Heq).
  exists (format_result compile_output out err rc), w'.
  split; [exact Heq|]. rewrite errors_format_result. unfold run_errors.
  repeat split.
  - intros Hrc He. apply Z.eqb_neq in Hrc. apply truthy_iff in He.
    now rewrite Hrc, He.
  - intros [->| ->]; [reflexivity|]. now rewrite andb_false_r.
  - apply not_true_is_false. intros Hs.
    apply success_format_result in Hs. contradiction.
  - subst err. now rewrite andb_false_r.
Qed.

Lemma run_failure_errors_witness :
  exists resp w',
    compile_and_run_code Scenario.bare_env Demo.python_request initial_world
      = (Ret resp, w') /\
    (1 <> 0 ->
     "Command not found: python - [Errno 2] No such file or directory" <> "" ->
     errors resp = ["Execution failed with exit code: " ++ PyStr.str_int 1]) /\
    (1 = 0
     \/ "Command not found: python - [Errno 2] No such file or directory" = ""
     -> errors resp = []) /\
    (1 <> 0 ->
     "Command not found: python - [Errno 2] No such file or directory" = "" ->
     success resp = false /\ errors resp = []).
Proof.
  refine (run_failure_errors Scenario.bare_env Demo.python_request
            initial_world Demo.python_config "" ""
            "Command not found: python - [Errno 2] No such file or directory"
            1 _ _).
  - split; [eexists; reflexivity|]. split; reflexivity.
  - reflexivity.
Defined.






(* ================================================================= *)
(** ** More on the toolchain probe *)

Lemma tried_first (env : Env) (cands : list string) :
  existsb (candidate_passes env) cands = true ->
  exists pre c post,
    cands = (pre ++ c :: post)%list /\
    candidate_passes env c = true /\
    (forall x, In x pre -> candidate_passes env x = false) /\
    tried env cands = (pre ++ [c])%list.
Proof.
  induction cands as [|a r IH]; simpl; [discriminate|].
  destruct (candidate_passes env a) eqn:Ha; simpl.
  - intros _. exists [], a, r. repeat split; auto. intros x [].
  - intros H. destruct (IH H) as (pre & c & post & -> & Hc & Hpre & Ht).
    exists (a :: pre), c, post. simpl. repeat split; auto.
    + intros x [<-|Hx]; auto.
    + now rewrite Ht.
Qed.

(** A host whose standard output takes every text. *)
Lemma demo_utf8_stdout : utf8_stdout Demo.demo_env.
Proof. intros s. reflexivity. Defined.

Lemma windows_utf8_stdout : utf8_stdout Scenario.windows_env.
Proof. intros s. reflexivity. Defined.

(** X9.  On a host whose standard output encodes every text, the probe
    answers [True] exactly when some candidate succeeds.  It then has
    launched the candidates up to the first one that succeeds and none
    after it; every launch is a version query without working directory
    and with the deadline of 15 seconds, and the table is not
    touched. *)
Theorem check_command_exists_true_iff (env : Env) (cmd : string) (w : World) :
  utf8_stdout env ->
  exists b w',
    check_command_exists env cmd w = (Ret b, w') /\
    registry w' = registry w /\
    (b = true <->
     exists c, In c (commands_to_try env cmd) /\ candidate_succeeds env c) /\
    (b = true ->
     exists pre c post,
       commands_to_try env cmd = (pre ++ c :: post)%list /\
       candidate_succeeds env c /\
       (forall x, In x pre -> ~ candidate_succeeds env x) /\
       trace w' = (trace w ++ probe_events (pre ++ [c]))%list).
Proof.
  intros Hu. rewrite (check_command_exists_utf8 _ _ _ Hu). do 2 eexists.
  split; [reflexivity|]. split; [reflexivity|]. split.
  - rewrite existsb_exists. split.
    + intros (c & Hc & Hp). exists c. split; [exact Hc|].
      now apply candidate_passes_iff.
    + intros (c & Hc & Hp). exists c. split; [exact Hc|].
      now apply candidate_passes_iff.
  - intros H. destruct (tried_first _ _ H) as (pre & c & post & E & Hc & Hp & Ht).
    exists pre, c, post. split; [exact E|].
    split; [now apply candidate_passes_iff|]. split.
    + intros x Hx Hs. apply candidate_passes_iff in Hs.
      rewrite (Hp x Hx) in Hs. discriminate.
    + cbn [logged trace]. now rewrite Ht.
Qed.

Lemma check_command_exists_true_iff_witness :
  exists b w',
    check_command_exists Scenario.windows_env "kotlinc" initial_world
      = (Ret b, w') /\
    registry w' = registry initial_world /\
    (b = true <->
     exists c, In c (commands_to_try Scenario.windows_env "kotlinc") /\
               candidate_succeeds Scenario.windows_env c) /\
    (b = true ->
     exists pre c post,
       commands_to_try Scenario.windows_env "kotlinc"
         = (pre ++ c :: post)%list /\
       candidate_succeeds Scenario.windows_env c /\
       (forall x, In x pre -> ~ candidate_succeeds Scenario.windows_env x) /\
       trace w' = (trace initial_world ++ probe_events (pre ++ [c]))%list).
Proof.
  exact (check_command_exists_true_iff Scenario.windows_env "kotlinc"
           initial_world windows_utf8_stdout).
Defined.

(** X23.  On a host whose standard output encodes every text, the probe
    always answers with a boolean; it answers [False] exactly when no
    candidate succeeds, and then every candidate has been launched, in
    order.  A candidate succeeds when its launch completes (a launch
    that raises, for a missing executable or an expired deadline, is a
    failure of that candidate) with exit code zero or, for [kotlinc] and
    [kotlinc.bat] only, with "kotlin" in its lower-cased stderr or
    stdout. *)
Theorem check_command_exists_false_iff (env : Env) (cmd : string) (w : World) :
  utf8_stdout env ->
  exists b w',
    check_command_exists env cmd w = (Ret b, w') /\
    (b = false <->
     forall c, In c (commands_to_try env cmd) -> ~ candidate_succeeds env c) /\
    (b = false ->
     trace w' = (trace w ++ probe_events (commands_to_try env cmd))%list).
Proof.
  intros Hu. rewrite (check_command_exists_utf8 _ _ _ Hu). do 2 eexists.
  split; [reflexivity|]. split.
  - split.
    + intros H c Hc Hs. apply candidate_passes_iff in Hs.
      assert (existsb (candidate_passes env) (commands_to_try env cmd) = true)
        by (apply existsb_exists; eauto).
      congruence.
    + intros H. apply not_true_is_false. intros Hex.
      apply existsb_exists in Hex. destruct Hex as (c & Hc & Hp).
      apply (H c Hc). now apply candidate_passes_iff.
  - intros H. simpl. now rewrite (tried_all _ _ H).
Qed.

Lemma check_command_exists_false_iff_witness :
  exists b w',
    check_command_exists Demo.demo_env "kotlinc" initial_world = (Ret b, w') /\
    (b = false <->
     forall c, In c (commands_to_try Demo.demo_env "kotlinc") ->
               ~ candidate_succeeds Demo.demo_env c) /\
    (b = false ->
     trace w' = (trace initial_world
                   ++ probe_events (commands_to_try Demo.demo_env "kotlinc"))%list).
Proof.
  exact (check_command_exists_false_iff Demo.demo_env "kotlinc" initial_world
           demo_utf8_stdout).
Defined.

Lemma commands_to_try_plain (env : Env) (cmd : string) :
  cmd <> "kotlinc" -> commands_to_try env cmd = [cmd].
Proof.
  intros Hn. unfold commands_to_try.
  destruct (String.eqb_spec cmd "kotlinc"); [contradiction|].
  now rewrite andb_false_r.
Qed.

(** X10.  On a host whose standard output encodes every text, for every
    tool other than [kotlinc] and [kotlinc.bat] and on every platform,
    the probe answers [True] exactly when the single launch of the tool
    with its version flag completes with exit code zero. *)
Theorem plain_tool_probe (env : Env) (cmd : string) :
  utf8_stdout env ->
  cmd <> "kotlinc" -> cmd <> "kotlinc.bat" ->
  (answers env cmd true <->
   exists result,
     spawn env (cmd :: version_flags_get cmd) None 15 = Ret result /\
     returncode result = 0).
Proof.
  intros Hu H1 H2.
  assert (Ha : answers env cmd true <-> candidate_passes env cmd = true).
  { unfold answers. split.
    - intros H. specialize (H initial_world).
      rewrite (check_command_exists_utf8 _ _ _ Hu) in H.
      rewrite (commands_to_try_plain _ _ H1) in H. cbn [fst existsb] in H.
      rewrite orb_false_r in H. congruence.
    - intros H w. rewrite (check_command_exists_utf8 _ _ _ Hu).
      rewrite (commands_to_try_plain _ _ H1). cbn [fst existsb].
      now rewrite orb_false_r, H. }
  rewrite Ha, candidate_passes_iff.
  unfold candidate_succeeds, kotlinc_family, probe_argv. split.
  - intros (r & Hr & [H|([E|E] & _)]); [eauto | contradiction | contradiction].
  - intros (r & Hr & H). eauto.
Qed.

Lemma plain_tool_probe_witness :
  answers Scenario.windows_env "kotlin" true <->
  exists result,
    spawn Scenario.windows_env ("kotlin" :: version_flags_get "kotlin") None 15
      = Ret result /\
    returncode result = 0.
Proof.
  refine (plain_tool_probe Scenario.windows_env "kotlin"
            windows_utf8_stdout _ _); discriminate.
Defined.

(* ================================================================= *)
(** ** Module start-up *)

(** X11.  Loading the module puts the Kotlin directory on the search
    path when that directory exists, keeps the previous search path as
    the tail of the new one, leaves it alone when the directory does not
    exist, and is idempotent: loading twice gives the same search path
    as loading once. *)
Theorem startup_path_idempotent (pathsep current_path : string)
    (bin_exists : bool) :
  occurs kotlin_bin_path (startup_path pathsep true current_path) /\
  startup_path pathsep false current_path = current_path /\
  (exists pre, startup_path pathsep bin_exists current_path
               = pre ++ current_path) /\
  startup_path pathsep bin_exists
    (startup_path pathsep bin_exists current_path)
  = startup_path pathsep bin_exists current_path.
Proof.
  assert (Hin : forall p,
             PyStr.contains kotlin_bin_path
               (kotlin_bin_path ++ pathsep ++ p) = true).
  { intros p. apply contains_iff. exists "", (pathsep ++ p). reflexivity. }
  repeat split.
  - unfold startup_path. rewrite andb_true_r.
    destruct (PyStr.contains kotlin_bin_path current_path) eqn:E; cbn [negb].
    + now apply contains_iff.
    + apply contains_iff, Hin.
  - unfold startup_path. now rewrite andb_false_r.
  - unfold startup_path.
    destruct (andb _ _).
    + exists (kotlin_bin_path ++ pathsep). now rewrite append_assoc.
    + now exists "".
  - unfold startup_path.
    destruct (andb (negb (PyStr.contains kotlin_bin_path current_path))
                   bin_exists) eqn:E.
    + now rewrite Hin.
    + now rewrite E.
Qed.

(* ================================================================= *)
(** ** POSIX paths and the life of the written file *)

Lemma split_slash_plain (cur f : string) :
  Posix.has_char Posix.slash f = false ->
  Posix.split_slash cur f = [cur ++ f].
Proof.
  revert cur; induction f as [|c r IH]; intros cur H; simpl in *.
  - now rewrite append_nil_r.
  - destruct (Ascii.eqb c Posix.slash); [discriminate|].
    rewrite (IH _ H), append_assoc. reflexivity.
Qed.

Lemma split_slash_app (cur d f : string) :
  Posix.has_char Posix.slash f = false ->
  Posix.split_slash cur (d ++ String Posix.slash f)
  = (Posix.split_slash cur d ++ [f])%list.
Proof.
  intros Hf. revert cur; induction d as [|c r IH]; intros cur.
  - cbn [append Posix.split_slash]. rewrite Ascii.eqb_refl.
    now rewrite (split_slash_plain "" f Hf).
  - cbn [append Posix.split_slash].
    destruct (Ascii.eqb c Posix.slash); cbn [app]; now rewrite IH.
Qed.

Lemma walk_snoc_plain (stack comps : list string) (f : string) :
  f <> "" -> f <> "." -> f <> ".." ->
  Posix.walk stack (comps ++ [f]) = (Posix.walk stack comps ++ [f])%list.
Proof.
  intros H0 H1 H2. revert stack; induction comps as [|c r IH]; intros stack.
  - cbn [app Posix.walk].
    apply String.eqb_neq in H0, H1, H2. rewrite H0, H1, H2. reflexivity.
  - cbn [app Posix.walk].
    destruct (orb (String.eqb c "") (String.eqb c ".")); [apply IH|].
    destruct (String.eqb c ".."); apply IH.
Qed.

Lemma walk_snoc_empty (stack comps : list string) :
  Posix.walk stack (comps ++ [""]) = Posix.walk stack comps.
Proof.
  revert stack; induction comps as [|c r IH]; intros stack.
  - reflexivity.
  - cbn [app Posix.walk].
    destruct (orb (String.eqb c "") (String.eqb c ".")); [apply IH|].
    destruct (String.eqb c ".."); apply IH.
Qed.

Lemma ends_with_slash (d : string) :
  Posix.ends_with Posix.slash d = true ->
  exists x, d = x ++ String Posix.slash "".
Proof.
  induction d as [|c r IH]; [discriminate|].
  destruct r as [|c' r'].
  - cbn [Posix.ends_with]. intros H. apply Ascii.eqb_eq in H. subst c.
    now exists "".
  - intros H. change (Posix.ends_with Posix.slash (String c' r') = true) in H.
    destruct (IH H) as (x & Hx). exists (String c x). cbn [append].
    now rewrite <- Hx.
Qed.

Lemma resolve_join_plain (d f : string) :
  plain_name f ->
  Posix.resolve (Posix.join d f) = (Posix.resolve d ++ [f])%list.
Proof.
  intros (Hs & H0 & H1 & H2). unfold Posix.resolve, Posix.join.
  destruct f as [|c r]; [contradiction|].
  assert (Hc : Ascii.eqb c Posix.slash = false).
  { cbn [Posix.has_char] in Hs.
    destruct (Ascii.eqb c Posix.slash); [discriminate | reflexivity]. }
  rewrite Hc.
  destruct d as [|a d'].
  - cbn [PyStr.truthy negb orb append].
    rewrite (split_slash_plain "" _ Hs). cbn [append].
    exact (walk_snoc_plain [] [] _ H0 H1 H2).
  - cbn [PyStr.truthy negb orb].
    destruct (Posix.ends_with Posix.slash (String a d')) eqn:He.
    + destruct (ends_with_slash _ He) as (x & ->).
      rewrite append_assoc. cbn [append].
      rewrite (split_slash_app "" x (String c r) Hs).
      rewrite (split_slash_app "" x "" eq_refl).
      rewrite walk_snoc_empty. now apply walk_snoc_plain.
    + rewrite (split_slash_app "" (String a d') (String c r) Hs).
      now apply walk_snoc_plain.
Qed.

Lemma is_prefix_app (l x : list string) : Posix.is_prefix l (l ++ x) = true.
Proof.
  induction l as [|a l IH]; [reflexivity|].
  cbn [app Posix.is_prefix]. now rewrite String.eqb_refl, IH.
Qed.

Lemma same_place_eq (p q : list string) :
  Posix.same_place p q = true -> p = q.
Proof.
  revert q; induction p as [|a p IH]; intros [|b q]; simpl;
    try discriminate; [reflexivity|].
  intros H. apply andb_true_iff in H. destruct H as (Hab & Hpq).
  apply String.eqb_eq in Hab. f_equal; auto.
Qed.

(** After the cleanup of [d] no file is left anywhere under [d]. *)
Lemma cleanup_removes (fs : Posix.Files) (d p : string) :
  Posix.inside d p = true ->
  Posix.file_at (Posix.step fs (EvCleanup d)) p = None.
Proof.
  intros Hin. unfold Posix.file_at, Posix.step.
  destruct (find _ _) as [g|] eqn:Hf; [|reflexivity].
  apply find_some in Hf. destruct Hf as (Hg & Hsame).
  apply filter_In in Hg. destruct Hg as (_ & Hout).
  apply same_place_eq in Hsame. rewrite Hsame in Hout.
  unfold Posix.inside in Hin. rewrite Hin in Hout. discriminate.
Qed.

Lemma run_snoc (fs : Posix.Files) (evs : list Event) (e : Event) :
  Posix.run fs (evs ++ [e]) = Posix.step (Posix.run fs evs) e.
Proof. unfold Posix.run. now rewrite fold_left_app. Qed.

(** X12.  On a POSIX host, a request that has created its workspace
    leaves no file anywhere under the workspace directory, whatever the
    files before the request and however the request ends. *)
Theorem workspace_removed (env : Env) (req : CompileRequest) (w : World)
    (fs : Posix.Files) :
  exists evs,
    trace (snd (compile_and_run_code env req w)) = (trace w ++ evs)%list /\
    (In (EvMkdtemp (mkdtemp env)) evs ->
     forall p,
       Posix.inside (mkdtemp env) p = true ->
       Posix.file_at (Posix.run fs evs) p = None).
Proof.
  destruct (select_profile_trace env req w)
    as ([resp|config] & w1 & probes & Hs & Ht & Hp).
  - exists probes. unfold compile_and_run_code, bind. rewrite Hs.
    cbn [snd ret]. split; [exact Ht|].
    intros Hin. exfalso. rewrite Forall_forall in Hp.
    destruct (Hp _ Hin) as (c & Hc). discriminate Hc.
  - rewrite (compile_and_run_code_selected _ _ _ _ _ Hs).
    destruct (in_workspace_trace env req config w1) as (mid & Hm & _).
    exists (probes ++ EvMkdtemp (mkdtemp env) :: mid
              ++ [EvCleanup (mkdtemp env)])%list.
    split.
    + rewrite Hm, Ht, <- app_assoc. reflexivity.
    + intros _ p Hin.
      replace (probes ++ EvMkdtemp (mkdtemp env) :: mid
                 ++ [EvCleanup (mkdtemp env)])%list
        with ((probes ++ EvMkdtemp (mkdtemp env) :: mid)
                ++ [EvCleanup (mkdtemp env)])%list
        by (rewrite <- app_assoc; reflexivity).
      rewrite run_snoc. now apply cleanup_removes.
Qed.

(** X13.  On a POSIX host, when the target file name is one ordinary
    path component (no slash, not empty, not "." or ".."), the file the
    code is written to resolves to a place directly inside the
    workspace directory. *)
Theorem plain_name_stays_inside (env : Env) (req : CompileRequest)
    (config : LanguageConfig) :
  os_path env = Posix.path_ops ->
  plain_name (target_filename req config) ->
  Posix.resolve (workspace_file env req config)
    = (Posix.resolve (mkdtemp env) ++ [target_filename req config])%list /\
  Posix.inside (mkdtemp env) (workspace_file env req config) = true.
Proof.
  intros Hos Hp. unfold workspace_file, Posix.inside. rewrite Hos.
  cbn [path_join Posix.path_ops].
  rewrite (resolve_join_plain _ _ Hp). split; [reflexivity|].
  apply is_prefix_app.
Qed.

Lemma plain_name_stays_inside_witness :
  Posix.resolve (workspace_file Demo.demo_env Demo.python_request
                   Demo.python_config)
    = (Posix.resolve (mkdtemp Demo.demo_env) ++ ["main.py"])%list /\
  Posix.inside (mkdtemp Demo.demo_env)
    (workspace_file Demo.demo_env Demo.python_request Demo.python_config)
    = true.
Proof.
  refine (plain_name_stays_inside Demo.demo_env Demo.python_request
            Demo.python_config _ _).
  - reflexivity.
  - repeat split; discriminate.
Defined.

(** X14.  On a POSIX host, a [fileName] that starts with a slash is the
    path the code is written to: the workspace directory plays no part
    in it. *)
Theorem absolute_fileName_overrides (env : Env) (req : CompileRequest)
    (config : LanguageConfig) (rest : string) :
  os_path env = Posix.path_ops ->
  fileName req = Some (String Posix.slash rest) ->
  workspace_file env req config = String Posix.slash rest.
Proof.
  intros Hos Hf. unfold workspace_file, target_filename.
  rewrite Hos, Hf. reflexivity.
Qed.

Lemma absolute_fileName_overrides_witness :
  workspace_file Demo.demo_env
    (mkRequest "print(1)" "python" (Some "/etc/cron.d/job")) Demo.python_config
  = "/etc/cron.d/job".
Proof.
  refine (absolute_fileName_overrides Demo.demo_env
            (mkRequest "print(1)" "python" (Some "/etc/cron.d/job"))
            Demo.python_config "etc/cron.d/job" _ _); reflexivity.
Defined.

(* ================================================================= *)
(** ** The class a Java request runs *)

Lemma has_char_app_r (ch : ascii) (x f : string) :
  Posix.has_char ch (x ++ String ch f) = true.
Proof.
  induction x as [|c x IH]; cbn [append Posix.has_char].
  - now rewrite Ascii.eqb_refl.
  - destruct (Ascii.eqb c ch); [reflexivity | exact IH].
Qed.

Lemma basename_plain (f : string) :
  Posix.has_char Posix.slash f = false -> Posix.basename f = f.
Proof.
  destruct f as [|c r]; [reflexivity|]. cbn [Posix.has_char Posix.basename].
  destruct (Ascii.eqb c Posix.slash); [discriminate|].
  intros H. now rewrite H.
Qed.

Lemma basename_app (x f : string) :
  Posix.has_char Posix.slash f = false ->
  Posix.basename (x ++ String Posix.slash f) = f.
Proof.
  intros Hf. induction x as [|c x IH]; cbn [append Posix.basename].
  - now rewrite Hf, Ascii.eqb_refl.
  - now rewrite has_char_app_r.
Qed.

Lemma basename_join (d f : string) :
  Posix.has_char Posix.slash f = false -> f <> "" ->
  Posix.basename (Posix.join d f) = f.
Proof.
  intros Hs Hne. unfold Posix.join.
  destruct f as [|c r]; [contradiction|].
  assert (Hc : Ascii.eqb c Posix.slash = false).
  { cbn [Posix.has_char] in Hs.
    destruct (Ascii.eqb c Posix.slash); [discriminate | reflexivity]. }
  rewrite Hc.
  destruct d as [|a d'].
  - cbn [PyStr.truthy negb orb append]. now apply basename_plain.
  - cbn [PyStr.truthy negb orb].
    destruct (Posix.ends_with Posix.slash (String a d')) eqn:He.
    + destruct (ends_with_slash _ He) as (x & ->).
      rewrite append_assoc. cbn [append]. now apply basename_app.
    + now apply basename_app.
Qed.

Lemma dirpart_plain (f : string) :
  Posix.has_char Posix.slash f = false -> Posix.dirpart f = "".
Proof.
  destruct f as [|c r]; [reflexivity|]. cbn [Posix.has_char Posix.dirpart].
  destruct (Ascii.eqb c Posix.slash); [discriminate|].
  intros H. now rewrite H.
Qed.

Lemma split_last_dot_none (e : string) :
  Posix.has_char Posix.dot e = false -> Posix.split_last_dot e = None.
Proof.
  induction e as [|c r IH]; [reflexivity|].
  cbn [Posix.has_char Posix.split_last_dot].
  destruct (Ascii.eqb c Posix.dot); [discriminate|].
  intros H. now rewrite (IH H).
Qed.

Lemma split_last_dot_app (n e : string) :
  Posix.has_char Posix.dot e = false ->
  Posix.split_last_dot (n ++ String Posix.dot e)
  = Some (n, String Posix.dot e).
Proof.
  intros He. induction n as [|c n IH]; cbn [append Posix.split_last_dot].
  - now rewrite (split_last_dot_none _ He), Ascii.eqb_refl.
  - now rewrite IH.
Qed.

Lemma has_char_app_false (ch : ascii) (a b : string) :
  Posix.has_char ch a = false -> Posix.has_char ch b = false ->
  Posix.has_char ch (a ++ b) = false.
Proof.
  intros Ha Hb. induction a as [|c a IH]; [exact Hb|].
  cbn [append Posix.has_char] in *.
  destruct (Ascii.eqb c ch); [discriminate | auto].
Qed.

(** X15.  On a POSIX host, a Java request whose file is named
    [n ++ ".java"], where [n] has no slash and is not made of dots only,
    is run as [java -cp <workspace> n]: the class is the file name
    without its extension. *)
Theorem java_runs_class_of_file (env : Env) (d n : string) :
  os_path env = Posix.path_ops ->
  Posix.has_char Posix.slash n = false ->
  Posix.all_dots n = false ->
  exists config,
    lookup "java" LANGUAGE_CONFIGS = Some config /\
    run_cmd config env (Posix.join d (n ++ ".java")) d
      = ["java"; "-cp"; d; n].
Proof.
  intros Hos Hs Hd. eexists. split; [reflexivity|].
  cbn [run_cmd]. rewrite Hos. cbn [path_basename path_splitext Posix.path_ops].
  assert (Hf : Posix.has_char Posix.slash (n ++ ".java") = false)
    by (apply has_char_app_false; [exact Hs | reflexivity]).
  assert (Hne : n ++ ".java" <> "") by (destruct n; discriminate).
  rewrite (basename_join d _ Hf Hne).
  unfold Posix.splitext.
  rewrite (basename_plain _ Hf), (dirpart_plain _ Hf).
  change (n ++ ".java") with (n ++ String Posix.dot "java").
  rewrite (split_last_dot_app n "java" eq_refl), Hd. reflexivity.
Qed.

Lemma java_runs_class_of_file_witness :
  exists config,
    lookup "java" LANGUAGE_CONFIGS = Some config /\
    run_cmd config Demo.demo_env
      (Posix.join "/tmp/tmpab12cd" ("Hello" ++ ".java")) "/tmp/tmpab12cd"
      = ["java"; "-cp"; "/tmp/tmpab12cd"; "Hello"].
Proof.
  refine (java_runs_class_of_file Demo.demo_env "/tmp/tmpab12cd" "Hello"
            _ _ _); reflexivity.
Defined.

(* ================================================================= *)
(** ** The listing and the start-up report *)

Lemma check_command_exists_log (env : Env) (cmd : string) (w : World) :
  PyStr.all_ascii cmd = true ->
  exists evs,
    check_command_exists env cmd w = (Ret (probe env cmd), logged w evs) /\
    Forall is_probe evs.
Proof.
  intros Ha. eexists. split; [now apply check_command_exists_eq|].
  apply probe_log_are_probes.
Qed.

Lemma languages_loop_log (env : Env) (ks languages : list string) (w : World) :
  exists evs,
    languages_loop env ks languages w
      = (Ret (languages ++ filter (listed env) ks)%list, logged w evs) /\
    Forall is_probe evs.
Proof.
  revert languages w; induction ks as [|k r IH]; intros languages w.
  - exists []. cbn [languages_loop filter]. unfold ret.
    now rewrite app_nil_r, logged_nil.
  - cbn [languages_loop filter]. unfold listed at 1.
    destruct (String.eqb k "kotlin"); cbn [negb orb].
    + unfold bind at 1.
      destruct (check_command_exists_log env "kotlinc" w eq_refl)
        as (e1 & -> & H1).
      destruct (probe env "kotlinc"); cbn [orb].
      * unfold bind, ret.
        destruct (IH (languages ++ [k])%list (logged w e1)) as (e2 & -> & H2).
        exists (e1 ++ e2)%list. rewrite logged_logged, <- app_assoc.
        split; [reflexivity | now apply Forall_app].
      * unfold bind at 1.
        destruct (check_command_exists_log env "kotlin" (logged w e1) eq_refl)
          as (e2 & -> & H2).
        rewrite logged_logged.
        destruct (probe env "kotlin").
        -- destruct (IH (languages ++ [k])%list (logged w (e1 ++ e2)))
             as (e3 & -> & H3).
           exists ((e1 ++ e2) ++ e3)%list. rewrite logged_logged, <- app_assoc.
           split; [reflexivity|].
           apply Forall_app. split; [now apply Forall_app | exact H3].
        -- destruct (IH languages (logged w (e1 ++ e2))) as (e3 & -> & H3).
           exists ((e1 ++ e2) ++ e3)%list. rewrite logged_logged.
           split; [reflexivity|].
           apply Forall_app. split; [now apply Forall_app | exact H3].
    + destruct (IH (languages ++ [k])%list w) as (e & -> & H).
      exists e. rewrite <- app_assoc. auto.
Qed.


(** X16.  The listing is the keys of the table in the table's order,
    with "kotlin" left out when neither Kotlin probe answers; it is
    never longer than the table; it leaves the table as it is and
    launches nothing but probes. *)
Theorem listing_ordered_readonly (env : Env) (w : World) :
  exists langs w' evs,
    get_supported_languages env w = (Ret langs, w') /\
    langs = filter (fun lang =>
                      orb (negb (String.eqb lang "kotlin"))
                          (orb (probe env "kotlinc") (probe env "kotlin")))
                   (keys (registry w)) /\
    (length langs <= length (keys (registry w)))%nat /\
    registry w' = registry w /\
    trace w' = (trace w ++ evs)%list /\ Forall is_probe evs.
Proof.
  unfold get_supported_languages, bind, get_registry.
  destruct (languages_loop_log env (keys (registry w)) [] w) as (evs & -> & H).
  do 3 eexists. split; [reflexivity|]. cbn [app].
  split; [reflexivity|]. split; [apply filter_length_le|].
  split; [reflexivity|]. split; [reflexivity | exact H].
Qed.


(* ================================================================= *)
(** ** The [/compile] endpoint *)

Lemma compile_and_run_code_returns (env : Env) (req : CompileRequest)
    (w : World) :
  exists resp w', compile_and_run_code env req w = (Ret resp, w').
Proof.
  destruct (select_profile_returns env req w) as ([resp|config] & w1 & Hs).
  - exists resp, w1. unfold compile_and_run_code, bind. now rewrite Hs.
  - rewrite (compile_and_run_code_selected _ _ _ _ _ Hs).
    destruct (in_workspace_sound env req config w1) as (resp & w' & H & _).
    eauto.
Qed.

Lemma lower_ascii_idempotent (c : ascii) :
  PyStr.lower_ascii (PyStr.lower_ascii c) = PyStr.lower_ascii c.
Proof.
  destruct c as [b0 b1 b2 b3 b4 b5 b6 b7].
  destruct b0, b1, b2, b3, b4, b5, b6, b7; reflexivity.
Qed.

Lemma lower_idempotent (s : string) :
  PyStr.lower (PyStr.lower s) = PyStr.lower s.
Proof.
  induction s as [|c r IH]; [reflexivity|].
  cbn [PyStr.lower]. now rewrite lower_ascii_idempotent, IH.
Qed.

Lemma all_ascii_lower (s : string) :
  PyStr.all_ascii (PyStr.lower s) = PyStr.all_ascii s.
Proof.
  induction s as [|c r IH]; [reflexivity|].
  cbn [PyStr.lower PyStr.all_ascii]. rewrite IH. f_equal.
  destruct c as [b0 b1 b2 b3 b4 b5 b6 b7].
  destruct b0, b1, b2, b3, b4, b5, b6, b7; reflexivity.
Qed.

(** Two texts that differ in the case of ASCII letters only have the
    same lower-case form. *)
Lemma py_lower_ext (env : Env) (a b : string) :
  PyStr.lower a = PyStr.lower b -> py_lower env a = py_lower env b.
Proof.
  intros H. unfold py_lower.
  rewrite <- (all_ascii_lower a), <- (all_ascii_lower b), H. reflexivity.
Qed.

(** An empty [fileName] selects the default file name, as none does. *)
Lemma empty_fileName_same (env : Env) (c l : string) :
  compile_and_run_code env (mkRequest c l (Some ""))
  = compile_and_run_code env (mkRequest c l None).
Proof. reflexivity. Qed.

Section EndpointFacts.

Variable untyped_run : Env -> Json -> string -> Json -> M CompileResponse.
Variable fault_text : Fault -> string.

(** X18.  The handler never lets an exception out and answers in one of
    four ways: 204 without body for the preflight; 400 with
    [success = False], empty output and one error, the world left as it
    was; 500 with [success = False], empty output and the one error
    "Server error: " followed by the text of the exception; or 200 with
    the result of the request. *)
Theorem endpoint_always_answers (env : Env) (request : HttpRequest)
    (w : World) :
  exists resp w',
    compile_endpoint untyped_run fault_text env request w = (Ret resp, w') /\
    ((status resp = 204 /\ body resp = None /\ w' = w) \/
     (status resp = 400 /\ w' = w /\
      exists message, body resp = Some (mkResponse false "" [message])) \/
     (status resp = 500 /\
      exists text,
        body resp = Some (mkResponse false "" ["Server error: " ++ text])) \/
     (status resp = 200 /\ exists result, body resp = Some result)).
Proof.
  unfold compile_endpoint.
  destruct (String.eqb (http_method request) "OPTIONS").
  { do 2 eexists. split; [reflexivity|]. left. repeat split. }
  unfold try_except.
  match goal with
  | |- context [match ?m w with _ => _ end] => destruct (m w) as [[r|e] w1] eqn:Hm
  end.
  2:{ do 2 eexists. split; [reflexivity|]. right. right. left.
      split; [reflexivity|]. eexists; reflexivity. }
  exists r, w1. split; [reflexivity|]. right.
  revert Hm. unfold rejected, bind, ret, raise, lift_py.
  destruct (is_json request); cbn [negb].
  2:{ intros H; injection H as <- <-. left.
      split; [reflexivity|]. split; [reflexivity|]. eexists; reflexivity. }
  destruct (get_json request) as [data|e]; [|discriminate].
  destruct (json_truthy data); cbn [negb].
  2:{ intros H; injection H as <- <-. left.
      split; [reflexivity|]. split; [reflexivity|]. eexists; reflexivity. }
  destruct (json_in fault_text "code" data w) as [[hc|e] w2] eqn:Hc.
  2:{ discriminate. }
  assert (Hw2 : w2 = w).
  { unfold json_in, ret, raise in Hc.
    destruct data; try destruct (json_field "code" fields);
      injection Hc as _ E; congruence. }
  subst w2.
  destruct hc; cbn [negb].
  2:{ intros H; injection H as <- <-. left.
      split; [reflexivity|]. split; [reflexivity|]. eexists; reflexivity. }
  destruct (json_in fault_text "language" data w) as [[hl|e] w3] eqn:Hl.
  2:{ discriminate. }
  assert (Hw3 : w3 = w).
  { unfold json_in, ret, raise in Hl.
    destruct data; try destruct (json_field "language" fields);
      injection Hl as _ E; congruence. }
  subst w3.
  destruct hl; cbn [negb].
  2:{ intros H; injection H as <- <-. left.
      split; [reflexivity|]. split; [reflexivity|]. eexists; reflexivity. }
  destruct (json_getitem fault_text data "code" w) as [[cv|e] w4];
    [|discriminate].
  destruct (json_getitem fault_text data "language" w4) as [[lv|e] w5];
    [|discriminate].
  destruct (json_lower fault_text env lv w5) as [[ln|e] w6]; [|discriminate].
  destruct (json_get fault_text data "fileName" w6) as [[fv|e] w7];
    [|discriminate].
  destruct (run_request untyped_run env cv ln fv w7) as [[result|e] w8];
    [|discriminate].
  intros H; injection H as <- <-. right. right.
  split; [reflexivity|]. eexists; reflexivity.
Qed.

(** A body with a string [code], a string [language] and a well-typed
    [fileName] is run as the request made of the code, the lower-cased
    language and the file name, and what that request returns is
    answered with 200. *)
Lemma endpoint_typed_eq (env : Env) (fields : list (string * Json))
    (c L : string) (w w' : World) (result : CompileResponse) :
  json_field "code" fields = Some (JStr c) ->
  json_field "language" fields = Some (JStr L) ->
  file_well_typed fields ->
  compile_and_run_code env
    (mkRequest c (py_lower env L) (requested_file fields)) w
    = (Ret result, w') ->
  compile_endpoint untyped_run fault_text env (post fields) w
    = (Ret (answered result), w').
Proof.
  intros Hc Hl Hf Hrun.
  unfold compile_endpoint, post. cbn [http_method is_json get_json].
  change (String.eqb "POST" "OPTIONS") with false. cbn [negb].
  unfold try_except, bind at 1, lift_py.
  assert (Ht : json_truthy (JObj fields) = true).
  { destruct fields; [discriminate Hc | reflexivity]. }
  rewrite Ht. cbn [negb].
  unfold bind, json_in, json_getitem, json_lower, json_get, ret.
  rewrite Hc, Hl. cbn [negb].
  assert (Hreq : run_request untyped_run env (JStr c) (py_lower env L)
                   match json_field "fileName" fields with
                   | Some v => v
                   | None => JNull
                   end w = (Ret result, w')).
  { unfold run_request, file_well_typed, requested_file in *.
    destruct (json_field "fileName" fields) as [v|]; [|exact Hrun].
    destruct v; try (rewrite Hf); exact Hrun. }
  rewrite Hreq. reflexivity.
Qed.

(** X19.  For a POST whose JSON body has a string [code], a string
    [language] and a well-typed [fileName], whatever the request made of
    the code, the lower-cased language and the file name returns is
    answered with status 200 and is the body of the answer, whether or
    not the program could be built or run. *)
Theorem well_formed_request_answered (env : Env)
    (fields : list (string * Json)) (c L : string) (w w' : World)
    (result : CompileResponse) :
  json_field "code" fields = Some (JStr c) ->
  json_field "language" fields = Some (JStr L) ->
  file_well_typed fields ->
  compile_and_run_code env
    (mkRequest c (py_lower env L) (requested_file fields)) w
    = (Ret result, w') ->
  compile_endpoint untyped_run fault_text env (post fields) w
    = (Ret (mkHttpResponse 200
              [("Access-Control-Allow-Origin", "*");
               ("Content-Type", "application/json")] (Some result)), w').
Proof.
  intros Hc Hl Hf Hrun.
  exact (endpoint_typed_eq env fields c L w w' result Hc Hl Hf Hrun).
Qed.

(** X20.  The answer depends on the body only through its code, its
    language up to letter case and its file name: two well-formed
    bodies that agree on these are answered alike, whatever the case of
    the language, the order of the items or the other items. *)
Theorem endpoint_reads_three_fields (env : Env)
    (fields1 fields2 : list (string * Json)) (c L1 L2 : string) (w : World) :
  json_field "code" fields1 = Some (JStr c) ->
  json_field "code" fields2 = Some (JStr c) ->
  json_field "language" fields1 = Some (JStr L1) ->
  json_field "language" fields2 = Some (JStr L2) ->
  PyStr.lower L1 = PyStr.lower L2 ->
  file_well_typed fields1 ->
  file_well_typed fields2 ->
  requested_file fields1 = requested_file fields2 ->
  compile_endpoint untyped_run fault_text env (post fields1) w
  = compile_endpoint untyped_run fault_text env (post fields2) w.
Proof.
  intros Hc1 Hc2 Hl1 Hl2 HL Hf1 Hf2 Hrf.
  destruct (compile_and_run_code_returns env
              (mkRequest c (py_lower env L1) (requested_file fields1)) w)
    as (result & w' & Hrun).
  rewrite (endpoint_typed_eq env fields1 c L1 w w' result Hc1 Hl1 Hf1 Hrun).
  rewrite (py_lower_ext env _ _ HL), Hrf in Hrun.
  now rewrite (endpoint_typed_eq env fields2 c L2 w w' result Hc2 Hl2 Hf2 Hrun).
Qed.

(** X21.  A [fileName] that is false in a condition (the empty string,
    null, false, zero, an empty list or an empty object) is ignored: the
    body is answered as the same body without [fileName]. *)
Theorem falsy_fileName_ignored (env : Env)
    (fields : list (string * Json)) (c L : string) (v : Json) (w : World) :
  json_field "code" fields = Some (JStr c) ->
  json_field "language" fields = Some (JStr L) ->
  json_field "fileName" fields = None ->
  json_truthy v = false ->
  compile_endpoint untyped_run fault_text env
    (post (("fileName", v) :: fields)) w
  = compile_endpoint untyped_run fault_text env (post fields) w.
Proof.
  intros Hc Hl Hn Hv.
  destruct (compile_and_run_code_returns env
              (mkRequest c (py_lower env L) None) w) as (result & w' & Hrun).
  assert (H2 : compile_endpoint untyped_run fault_text env (post fields) w
               = (Ret (answered result), w')).
  { apply (endpoint_typed_eq env fields c L); auto.
    - unfold file_well_typed. now rewrite Hn.
    - unfold requested_file. now rewrite Hn. }
  rewrite H2.
  apply (endpoint_typed_eq env (("fileName", v) :: fields) c L); auto.
  - unfold file_well_typed. cbn. destruct v; auto.
  - unfold requested_file. cbn.
    destruct v; try exact Hrun.
    destruct s; [|discriminate Hv].
    now rewrite empty_fileName_same.
Qed.

End EndpointFacts.

Lemma well_formed_request_answered_witness :
  compile_endpoint (fun _ _ _ _ => raise (OtherException "TypeError"))
    (fun _ => "TypeError") Demo.demo_env
    (post [("code", JStr "int main( {"); ("language", JStr "CPP")])
    initial_world
  = (Ret (mkHttpResponse 200
            [("Access-Control-Allow-Origin", "*");
             ("Content-Type", "application/json")]
            (Some (mkResponse false
                     "main.cpp:1:1: error: expected declaration"
                     ["Compilation failed with exit code: 1"]))),
     mkWorld LANGUAGE_CONFIGS
       [EvMkdtemp "/tmp/tmpab12cd";
        EvWrite "/tmp/tmpab12cd/main.cpp" "int main( {";
        EvSpawn ["g++"; "/tmp/tmpab12cd/main.cpp"; "-o";
                 "/tmp/tmpab12cd/program.exe"] (Some "/tmp/tmpab12cd") 60;
        EvCleanup "/tmp/tmpab12cd"]).
Proof.
  refine (well_formed_request_answered
            (fun _ _ _ _ => raise (OtherException "TypeError"))
            (fun _ => "TypeError") Demo.demo_env
            [("code", JStr "int main( {"); ("language", JStr "CPP")]
            "int main( {" "CPP" initial_world _ _ _ _ _ _).
  - reflexivity.
  - reflexivity.
  - exact I.
  - reflexivity.
Defined.

Lemma endpoint_reads_three_fields_witness :
  compile_endpoint (fun _ _ _ _ => raise (OtherException "TypeError"))
    (fun _ => "TypeError") Demo.demo_env
    (post [("code", JStr "print('hi')"); ("language", JStr "PYTHON")])
    initial_world
  = compile_endpoint (fun _ _ _ _ => raise (OtherException "TypeError"))
      (fun _ => "TypeError") Demo.demo_env
      (post [("debug", JBool true); ("language", JStr "python");
             ("code", JStr "print('hi')")])
      initial_world.
Proof.
  refine (endpoint_reads_three_fields
            (fun _ _ _ _ => raise (OtherException "TypeError"))
            (fun _ => "TypeError") Demo.demo_env
            [("code", JStr "print('hi')"); ("language", JStr "PYTHON")]
            [("debug", JBool true); ("language", JStr "python");
             ("code", JStr "print('hi')")]
            "print('hi')" "PYTHON" "python" initial_world _ _ _ _ _ _ _ _).
  - reflexivity.
  - reflexivity.
  - reflexivity.
  - reflexivity.
  - reflexivity.
  - exact I.
  - exact I.
  - reflexivity.
Defined.

Lemma falsy_fileName_ignored_witness :
  compile_endpoint (fun _ _ _ _ => raise (OtherException "TypeError"))
    (fun _ => "TypeError") Demo.demo_env
    (post [("fileName", JArr []); ("code", JStr "print('hi')");
           ("language", JStr "python")])
    initial_world
  = compile_endpoint (fun _ _ _ _ => raise (OtherException "TypeError"))
      (fun _ => "TypeError") Demo.demo_env
      (post [("code", JStr "print('hi')"); ("language", JStr "python")])
      initial_world.
Proof.
  refine (falsy_fileName_ignored
            (fun _ _ _ _ => raise (OtherException "TypeError"))
            (fun _ => "TypeError") Demo.demo_env
            [("code", JStr "print('hi')"); ("language", JStr "python")]
            "print('hi')" "python" (JArr []) initial_world _ _ _ _).
  - reflexivity.
  - reflexivity.
  - reflexivity.
  - reflexivity.
Defined.
